(** * llama2-webui: prompt assembly, streaming generation and admission control

    A shallow embedding of [llama2_wrapper/model.py] and of the request
    handlers of [app_4bit_ggml.py], with the properties the specification
    states about them.

    - Python [str] is a sequence of Unicode code points: [list N].
    - Python [int] is [Z]; Python [float] is a binary64 [float].
    - The [config] dict is a [gmap string pyval].
    - A Python generator is modelled by the list of values it yields when it
      is driven to exhaustion, together with the exception (if any) that
      ends it; the opaque inference engine is a record of functions. *)

From Stdlib Require Import ZArith NArith List Ascii String Lia Bool.
From Stdlib Require Strings.Byte.
From Stdlib Require Import DecimalString Floats.
From stdpp Require Import base gmap strings list.

Local Open Scope Z_scope.

(** Decimal float literals denote the nearest binary64 value, as in Python. *)
#[local] Set Warnings "-inexact-float".

(* ===================================================================== *)
(** ** Python strings                                                     *)
(* ===================================================================== *)

Module PyStr.

Definition codepoint := N.
Definition str := list codepoint.

(** A string literal of the source (ASCII only). *)
Definition lit (s : string) : str := map N_of_ascii (list_ascii_of_string s).

(** The escape ["\n"]. *)
Definition NL : codepoint := 10%N.

(** [str.isspace] on one code point: CPython's [_PyUnicode_IsWhitespace]. *)
Definition isspace (c : codepoint) : bool :=
  ((9 <=? c) && (c <=? 13) || (28 <=? c) && (c <=? 32)
   || (c =? 133) || (c =? 160) || (c =? 5760)
   || (8192 <=? c) && (c <=? 8202)
   || (c =? 8232) || (c =? 8233) || (c =? 8239) || (c =? 8287)
   || (c =? 12288))%N.

Fixpoint lstrip (s : str) : str :=
  match s with
  | [] => []
  | c :: s' => if isspace c then lstrip s' else s
  end.

Definition rstrip (s : str) : str := rev (lstrip (rev s)).

(** [s.strip()] *)
Definition strip (s : str) : str := rstrip (lstrip s).

(** [s[i:]] for any Python sequence: a negative index counts from the end,
    and an index out of range is clamped. *)
Definition slice_from {A} (i : Z) (s : list A) : list A :=
  let len := Z.of_nat (length s) in
  let start := if i <? 0 then Z.max (len + i) 0 else Z.min i len in
  drop (Z.to_nat start) s.

(** [s[:j]] *)
Definition slice_to {A} (j : Z) (s : list A) : list A :=
  let len := Z.of_nat (length s) in
  let stop := if j <? 0 then Z.max (len + j) 0 else Z.min j len in
  take (Z.to_nat stop) s.

(** [s.startswith(p)] *)
Fixpoint startswith (p s : str) : bool :=
  match p, s with
  | [], _ => true
  | _ :: _, [] => false
  | a :: p', b :: s' => (a =? b)%N && startswith p' s'
  end.

(** [sep in s] *)
Fixpoint contains (sep s : str) : bool :=
  startswith sep s ||
  match s with
  | [] => false
  | _ :: s' => contains sep s'
  end.

(** [s.split(sep)[0]] for a non-empty [sep]: the text before the first
    occurrence of [sep], the whole of [s] when there is none. *)
Fixpoint split_head (sep s : str) : str :=
  if startswith sep s then []
  else match s with
       | [] => []
       | c :: s' => c :: split_head sep s'
       end.

(** ["".join(parts)] *)
Definition join (parts : list str) : str := concat parts.

(** The byte of a number below 256. *)
Definition byte_of (n : N) : Byte.byte :=
  match Byte.of_N (n mod 256) with
  | Some b => b
  | None => Byte.x00
  end.

(** The UTF-8 encoding of one code point; [None] for a surrogate
    (U+D800 to U+DFFF), which the codec refuses, and for a number that is
    not a code point of a Python string. *)
Definition encode_char (c : codepoint) : option (list Byte.byte) :=
  (if c <? 128 then Some [byte_of c]
   else if c <? 2048 then
     Some [byte_of (192 + c / 64); byte_of (128 + c mod 64)]
   else if (55296 <=? c) && (c <=? 57343) then None
   else if c <? 65536 then
     Some [byte_of (224 + c / 4096); byte_of (128 + (c / 64) mod 64);
           byte_of (128 + c mod 64)]
   else if c <? 1114112 then
     Some [byte_of (240 + c / 262144); byte_of (128 + (c / 4096) mod 64);
           byte_of (128 + (c / 64) mod 64); byte_of (128 + c mod 64)]
   else None)%N.

(** [bytes(s, "utf-8")], [None] when it raises [UnicodeEncodeError]. *)
Fixpoint encode_utf8 (s : str) : option (list Byte.byte) :=
  match s with
  | [] => Some []
  | c :: s' =>
    match encode_char c, encode_utf8 s' with
    | Some b, Some data => Some (b ++ data)
    | _, _ => None
    end
  end.

(** [f"{n}"] for a non-negative [int]. *)
Definition decimal (n : N) : str := lit (NilEmpty.string_of_uint (N.to_uint n)).

End PyStr.
Import PyStr.

(* ===================================================================== *)
(** ** The prompt builder: [get_prompt]                                   *)
(* ===================================================================== *)

Definition turn := (str * str)%type.

(** The body of [for user_input, response in chat_history: prompt += ...]. *)
Definition history_loop (prompt : str) (chat_history : list turn) : str :=
  fold_left
    (fun prompt '(user_input, response) =>
       prompt ++ (lit "<s>Human: " ++ strip user_input
                  ++ (NL :: lit "</s><s>Assistant: ") ++ strip response
                  ++ (NL :: lit "</s>")))
    chat_history prompt.

Definition get_prompt (message : str) (chat_history : list turn)
    (system_prompt : str) : str :=
  let prompt := [] in
  let prompt := history_loop prompt chat_history in
  let prompt := prompt ++ (lit "<s>Human: " ++ strip message
                           ++ (NL :: lit "</s><s>Assistant: ")) in
  let prompt := slice_from (-2048) prompt in
  if (0 <? length system_prompt)%nat
  then lit "<s>System: " ++ strip system_prompt ++ (NL :: lit "</s>") ++ prompt
  else prompt.

(** The specification's reading of the prompt, to compare [get_prompt]
    with: one formatted block per turn, then the open block of the new
    message, and the system block. *)
Module PromptSpec.

Definition turn_block (t : turn) : str :=
  lit "<s>Human: " ++ strip (fst t) ++ (NL :: lit "</s><s>Assistant: ")
  ++ strip (snd t) ++ (NL :: lit "</s>").

Definition open_block (message : str) : str :=
  lit "<s>Human: " ++ strip message ++ (NL :: lit "</s><s>Assistant: ").

(** [T]: the turn blocks of the history followed by the open block. *)
Definition turns_portion (message : str) (chat_history : list turn) : str :=
  concat (map turn_block chat_history) ++ open_block message.

Definition system_block (system_prompt : str) : str :=
  match system_prompt with
  | [] => []
  | _ :: _ => lit "<s>System: " ++ strip system_prompt ++ (NL :: lit "</s>")
  end.

End PromptSpec.

(* ===================================================================== *)
(** ** Python values, the configuration and the engine                    *)
(* ===================================================================== *)

(** The values a [config] entry holds. *)
Inductive pyval :=
| PyNone
| PyBool (b : bool)
| PyInt (n : Z)
| PyStr (s : str).

(** Truth value of [if v:]. *)
Definition truthy (v : pyval) : bool :=
  match v with
  | PyNone => false
  | PyBool b => b
  | PyInt n => negb (n =? 0)
  | PyStr s => match s with [] => false | _ :: _ => true end
  end.

(** [config.get(key, default)]; [config.get(key)] is [config_get config key PyNone]. *)
Definition config_get (config : gmap string pyval) (key : string)
    (default : pyval) : pyval :=
  match config !! key with
  | Some v => v
  | None => default
  end.

(** The exceptions that the code raises or lets through. *)
Inductive exn :=
| ValueError
| GrError (message : str)
| UnicodeEncodeError.

(** What the token generator of the engine delivers: llama.cpp yields token
    ids; the loop of [generate] also compares a token with the text
    ['</s>']. *)
Inductive token :=
| TokId (id : Z)
| TokText (text : str).

Definition token_eqb (a b : token) : bool :=
  match a, b with
  | TokId x, TokId y => x =? y
  | TokText x, TokText y => bool_decide (x = y)
  | _, _ => false
  end.

(** The operations of the inference engine that the wrapper calls. The
    engine itself is outside the repository; every property below holds for
    all engines.
    - [tokenize data]: [self.model.tokenize(data)] on the encoded prompt;
    - [model_generate inputs top_p top_k temp]: the tokens that the iterator
      [self.model.generate(inputs, top_p=.., top_k=.., temp=..)] delivers
      until it is exhausted;
    - [detokenize_utf8 tokens]: [str(self.model.detokenize(tokens),
      encoding="utf-8")], [None] when the call or the decoding raises;
    - [token_eos]: [self.model.token_eos()];
    - [tokenizer_length prompt]: the last dimension of
      [self.tokenizer([prompt], return_tensors="np")["input_ids"]];
    - [streamer prompt max_new_tokens top_p top_k temperature]: the texts
      that the [TextIteratorStreamer] delivers while the background thread
      runs [self.model.generate]. *)
Record Engine := {
  tokenize : list Byte.byte -> list token;
  model_generate : list token -> float -> Z -> float -> list token;
  detokenize_utf8 : list token -> option str;
  token_eos : token;
  tokenizer_length : str -> nat;
  streamer : str -> Z -> float -> Z -> float -> list str
}.

Record LLAMA2_WRAPPER := {
  config : gmap string pyval;
  model : Engine
}.

(* ===================================================================== *)
(** ** [LLAMA2_WRAPPER.create_llama2_model]                               *)
(* ===================================================================== *)

(** The constructor call that [create_llama2_model] makes. *)
Inductive model_loader :=
| Llama (model_path n_ctx n_batch : pyval)
| AutoGPTQForCausalLM_from_quantized (model_name : pyval)
| AutoModelForCausalLM_from_pretrained (model_name load_in_8bit : pyval).

Definition create_llama2_model (config : gmap string pyval) : model_loader :=
  let model_name := config_get config "model_name" PyNone in
  let load_in_8bit := config_get config "load_in_8bit" (PyBool true) in
  let load_in_4bit := config_get config "load_in_4bit" (PyBool false) in
  let llama_cpp := config_get config "llama_cpp" (PyBool false) in
  if truthy llama_cpp then
    Llama model_name
          (config_get config "MAX_INPUT_TOKEN_LENGTH" PyNone)
          (config_get config "MAX_INPUT_TOKEN_LENGTH" PyNone)
  else if truthy load_in_4bit then
    AutoGPTQForCausalLM_from_quantized model_name
  else
    AutoModelForCausalLM_from_pretrained model_name load_in_8bit.

(* ===================================================================== *)
(** ** [LLAMA2_WRAPPER.generate]                                          *)
(* ===================================================================== *)

(** Why the loop of the llama.cpp branch ended (not a value of the source:
    it names the [break] that was taken, [Exhausted] when the token iterator
    ran out). [HumanMarker acc] keeps the accumulated answer before its
    truncation. [Unencodable] is never the result of the loop: it stands for
    a call that raised on [bytes(prompt, "utf-8")], before the loop. *)
Inductive stop_reason :=
| EndTag
| HumanMarker (accumulated : str)
| EosToken
| Exhausted
| Unencodable.

(** The [try: ... except: pass] block of the loop: the token joins
    [new_tokens]; when the pending tokens decode, their text is appended to
    the answer and [new_tokens] is emptied; when they do not, the exception
    is swallowed and the token stays pending. *)
Definition try_detokenize (m : Engine) (answer_message : str)
    (new_tokens : list token) (tok : token) : str * list token :=
  let new_tokens := new_tokens ++ [tok] in
  match detokenize_utf8 m new_tokens with
  | Some b_text => (answer_message ++ b_text, [])
  | None => (answer_message, new_tokens)
  end.

(** [for token in generator: ...] of the llama.cpp branch, from the state
    [(answer_message, new_tokens)]: the chunks yielded, and how it ended.
    [generator] lists the tokens that the iterator delivers; an iterator that
    never ends is covered through its finite prefixes, on which the loop
    yields a prefix of its chunks ([llama_cpp_loop_app]). *)
Fixpoint llama_cpp_loop (m : Engine) (answer_message : str)
    (new_tokens : list token) (generator : list token)
    : list str * stop_reason :=
  match generator with
  | [] => ([], Exhausted)
  | tok :: generator' =>
    if negb (token_eqb tok (TokText (lit "</s>"))) then
      let '(answer_message, new_tokens) :=
        try_detokenize m answer_message new_tokens tok in
      if contains (lit "Human:") answer_message then
        ([split_head (lit "Human:") answer_message], HumanMarker answer_message)
      else if token_eqb tok (token_eos m) then
        ([answer_message], EosToken)
      else
        let '(chunks, reason) :=
          llama_cpp_loop m answer_message new_tokens generator' in
        (answer_message :: chunks, reason)
    else
      ([answer_message], EndTag)
  end.

(** [for text in streamer: outputs.append(text); yield "".join(outputs)] *)
Fixpoint streamer_loop (outputs : list str) (texts : list str) : list str :=
  match texts with
  | [] => []
  | text :: texts' =>
    let outputs := outputs ++ [text] in
    join outputs :: streamer_loop outputs texts'
  end.

(** The first statements of the llama.cpp branch: the prompt is encoded and
    tokenized, and the token iterator of the engine is created with
    [top_p], [top_k] and [temp]. The result is the tokens that this iterator
    delivers, [None] when [bytes(prompt, "utf-8")] raises. *)
Definition backend_tokens (self : LLAMA2_WRAPPER) (prompt : str)
    (temperature top_p : float) (top_k : Z) : option (list token) :=
  match encode_utf8 prompt with
  | Some data =>
    let inputs := tokenize (model self) data in
    Some (model_generate (model self) inputs top_p top_k temperature)
  | None => None
  end.

(** The chunks that the iterator returned by [generate] yields; none when
    it raises, which it can only do before the first chunk. *)
Definition generate (self : LLAMA2_WRAPPER) (prompt : str)
    (max_new_tokens : Z) (temperature top_p : float) (top_k : Z) : list str :=
  if truthy (config_get (config self) "llama_cpp" PyNone) then
    match backend_tokens self prompt temperature top_p top_k with
    | Some generator => fst (llama_cpp_loop (model self) [] [] generator)
    | None => []
    end
  else
    streamer_loop []
      (streamer (model self) prompt max_new_tokens top_p top_k temperature).

(** The exception that ends the iterator returned by [generate], raised on
    its first [next()]: the [UnicodeEncodeError] of a prompt that cannot be
    encoded, in the llama.cpp branch. *)
Definition generate_raises (self : LLAMA2_WRAPPER) (prompt : str)
    : option exn :=
  if truthy (config_get (config self) "llama_cpp" PyNone) then
    match encode_utf8 prompt with
    | Some _ => None
    | None => Some UnicodeEncodeError
    end
  else None.

(** The state [(answer_message, new_tokens)] that the loop has reached when
    it has consumed [tokens] without leaving. *)
Definition loop_state (m : Engine) (answer_message : str)
    (new_tokens : list token) (tokens : list token) : str * list token :=
  fold_left (fun st tok => try_detokenize m (fst st) (snd st) tok)
            tokens (answer_message, new_tokens).

(** Chunk lengths that never decrease from one chunk to the next. *)
Definition nondecreasing (chunks : list str) : Prop :=
  forall (i : nat) (a b : str),
    chunks !! i = Some a -> chunks !! S i = Some b ->
    (length a <= length b)%nat.

(** Chunk lengths that never decrease and start at [lo] or above. *)
Fixpoint lengths_from (lo : nat) (chunks : list str) : Prop :=
  match chunks with
  | [] => True
  | c :: chunks' => (lo <= length c)%nat /\ lengths_from (length c) chunks'
  end.

(** How the llama.cpp branch of [generate] ended. *)
Definition generate_stop (self : LLAMA2_WRAPPER) (prompt : str)
    (temperature top_p : float) (top_k : Z) : stop_reason :=
  match backend_tokens self prompt temperature top_p top_k with
  | Some generator => snd (llama_cpp_loop (model self) [] [] generator)
  | None => Unencodable
  end.

(** [LLAMA2_WRAPPER.get_token_length]: the number of tokens, or the
    exception of [bytes(prompt, "utf-8")]. *)
Definition get_token_length (self : LLAMA2_WRAPPER) (prompt : str)
    : exn + Z :=
  if truthy (config_get (config self) "llama_cpp" PyNone) then
    match encode_utf8 prompt with
    | Some data =>
      let input_ids := tokenize (model self) data in
      inr (Z.of_nat (length input_ids))
    | None => inl UnicodeEncodeError
    end
  else
    inr (Z.of_nat (tokenizer_length (model self) prompt)).

(** [LLAMA2_WRAPPER.get_input_token_length] *)
Definition get_input_token_length (self : LLAMA2_WRAPPER) (message : str)
    (chat_history : list turn) (system_prompt : str) : exn + Z :=
  let prompt := get_prompt message chat_history system_prompt in
  get_token_length self prompt.

(* ===================================================================== *)
(** ** Effects: exceptions and the trace of a request                     *)
(* ===================================================================== *)

(** What can be observed of a request:
    - [EvGenerate]: the iterator of [LLAMA2_WRAPPER.generate] was started on
      a prompt with these generation parameters;
    - [EvYield]: the session yielded a transcript;
    - [EvError]: an exception left a handler and was reported. *)
Inductive event :=
| EvGenerate (prompt : str) (max_new_tokens : Z) (temperature top_p : float)
             (top_k : Z)
| EvYield (transcript : list turn)
| EvError (e : exn).

(** A computation that may raise and that extends the trace. *)
Definition M (A : Type) : Type := list event -> (exn + A) * list event.

Definition ret {A} (a : A) : M A := fun tr => (inr a, tr).

Definition raise {A} (e : exn) : M A := fun tr => (inl e, tr).

Definition emit (ev : event) : M unit := fun tr => (inr tt, tr ++ [ev]).

Definition bind {A B} (c : M A) (k : A -> M B) : M B :=
  fun tr =>
    match c tr with
    | (inl e, tr') => (inl e, tr')
    | (inr a, tr') => k a tr'
    end.

Declare Scope py_scope.
Delimit Scope py_scope with py.
Notation "x <- c ;; k" := (bind c (fun x => k))
  (at level 100, c at next level, right associativity) : py_scope.
Notation "c ;;; k" := (bind c (fun _ => k))
  (at level 100, right associativity) : py_scope.

(** [LLAMA2_WRAPPER.run]: builds the prompt and starts [generate] on it; the
    result is the sequence of chunks of that iterator, or the exception of
    its first [next()]. *)
Definition run (self : LLAMA2_WRAPPER) (message : str)
    (chat_history : list turn) (system_prompt : str) (max_new_tokens : Z)
    (temperature top_p : float) (top_k : Z) : M (list str) :=
  (let prompt := get_prompt message chat_history system_prompt in
   emit (EvGenerate prompt max_new_tokens temperature top_p top_k) ;;;
   match generate_raises self prompt with
   | Some e => raise e
   | None => ret (generate self prompt max_new_tokens temperature top_p top_k)
   end)%py.

(* ===================================================================== *)
(** ** The application: [app_4bit_ggml.py]                                *)
(* ===================================================================== *)

Module App.

Definition DEFAULT_MAX_NEW_TOKENS : Z := 1024.
Definition MAX_INPUT_TOKEN_LENGTH : Z := 4000.
Definition LOAD_IN_8BIT : bool := false.
Definition LOAD_IN_4BIT : bool := true.
Definition LLAMA_CPP : bool := true.

Section Handlers.
(** The command line ([--model_path], [--max_max_new_tokens]) and the
    model that [init_model] loaded. *)
Variable MODEL_PATH : str.
Variable MAX_MAX_NEW_TOKENS : Z.
Variable engine : Engine.

Definition config : gmap string pyval :=
  <["model_name" := PyStr MODEL_PATH]>
    (<["load_in_8bit" := PyBool LOAD_IN_8BIT]>
       (<["load_in_4bit" := PyBool LOAD_IN_4BIT]>
          (<["llama_cpp" := PyBool LLAMA_CPP]>
             (<["MAX_INPUT_TOKEN_LENGTH" := PyInt MAX_INPUT_TOKEN_LENGTH]>
                ∅)))).

Definition llama2_wrapper : LLAMA2_WRAPPER :=
  Build_LLAMA2_WRAPPER config engine.

Definition clear_and_save_textbox (message : str) : str * str :=
  ([], message).

(** [history.append((message, "")); return history] *)
Definition display_input (message : str) (history : list turn)
    : list turn :=
  history ++ [(message, [])].

(** [history.pop()], with the [IndexError] of an empty list caught. *)
Definition delete_prev_fn (history : list turn) : list turn * str :=
  match rev history with
  | (message, _) :: _ => (removelast history, message)
  | [] => (history, [])
  end.

(** The session-level [generate]: the transcripts it yields when it is
    iterated to the end. *)
Definition generate (message : str) (history_with_input : list turn)
    (system_prompt : str) (max_new_tokens : Z) (temperature top_p : float)
    (top_k : Z) : M (list (list turn)) :=
  ((if MAX_MAX_NEW_TOKENS <? max_new_tokens
    then raise ValueError else ret tt) ;;;
   let history := slice_to (-1) history_with_input in
   generator <- run llama2_wrapper message history system_prompt
                    max_new_tokens temperature top_p top_k ;;
   ret (match generator with
        | first_response :: generator' =>
          (history ++ [(message, first_response)])
            :: map (fun response => history ++ [(message, response)])
                   generator'
        | [] =>
          (* except StopIteration *)
          [history ++ [(message, [])]]
        end))%py.

Definition check_input_token_length (message : str)
    (chat_history : list turn) (system_prompt : str) : M unit :=
  match get_input_token_length llama2_wrapper message chat_history
                               system_prompt with
  | inl e => raise e
  | inr input_token_length =>
    if MAX_INPUT_TOKEN_LENGTH <? input_token_length then
      raise (GrError
               (lit "The accumulated input is too long ("
                ++ decimal (Z.to_N input_token_length) ++ lit " > "
                ++ decimal (Z.to_N MAX_INPUT_TOKEN_LENGTH)
                ++ lit "). Clear your chat history and try again."))
    else ret tt
  end.

(** The values of the interface components that the handlers read and
    write. *)
Record components := {
  textbox : str;
  saved_input : str;
  chatbot : list turn;
  system_prompt : str;
  max_new_tokens : Z;
  temperature : float;
  top_p : float;
  top_k : Z
}.

Definition set_textbox_saved (t s : str) (c : components) : components :=
  {| textbox := t; saved_input := s; chatbot := chatbot c;
     system_prompt := system_prompt c; max_new_tokens := max_new_tokens c;
     temperature := temperature c; top_p := top_p c; top_k := top_k c |}.

Definition set_chatbot (h : list turn) (c : components) : components :=
  {| textbox := textbox c; saved_input := saved_input c; chatbot := h;
     system_prompt := system_prompt c; max_new_tokens := max_new_tokens c;
     temperature := temperature c; top_p := top_p c; top_k := top_k c |}.

Definition set_chatbot_saved (h : list turn) (s : str) (c : components)
    : components :=
  {| textbox := textbox c; saved_input := s; chatbot := h;
     system_prompt := system_prompt c; max_new_tokens := max_new_tokens c;
     temperature := temperature c; top_p := top_p c; top_k := top_k c |}.

(** A handler wired to its [inputs] and [outputs]. *)
Definition listener := components -> M components.

(** [fn=clear_and_save_textbox, inputs=textbox,
    outputs=[textbox, saved_input]] *)
Definition on_clear_and_save_textbox : listener := fun c =>
  let '(t, s) := clear_and_save_textbox (textbox c) in
  ret (set_textbox_saved t s c).

(** [fn=display_input, inputs=[saved_input, chatbot], outputs=chatbot] *)
Definition on_display_input : listener := fun c =>
  ret (set_chatbot (display_input (saved_input c) (chatbot c)) c).

(** [fn=check_input_token_length,
    inputs=[saved_input, chatbot, system_prompt]] *)
Definition on_check_input_token_length : listener := fun c =>
  (check_input_token_length (saved_input c) (chatbot c) (system_prompt c) ;;;
   ret c)%py.

(** [fn=generate, inputs=[saved_input, chatbot, system_prompt,
    max_new_tokens, temperature, top_p, top_k], outputs=chatbot]: every
    transcript that is yielded replaces the chatbot. *)
Definition on_generate : listener := fun c =>
  (transcripts <- generate (saved_input c) (chatbot c) (system_prompt c)
                           (max_new_tokens c) (temperature c) (top_p c)
                           (top_k c) ;;
   (fun tr => (inr tt, tr ++ map EvYield transcripts)) ;;;
   ret (set_chatbot (List.last transcripts (chatbot c)) c))%py.

(** [fn=delete_prev_fn, inputs=chatbot, outputs=[chatbot, saved_input]] *)
Definition on_delete_prev_fn : listener := fun c =>
  let '(h, m) := delete_prev_fn (chatbot c) in
  ret (set_chatbot_saved h m c).

(** How a listener is chained to the one before it: [.then(...)] runs
    when the previous one has finished, whether it failed or not;
    [.success(...)] runs only when the previous one did not raise. The
    first listener of a chain runs on the event itself. *)
Inductive trigger := Then | Success.

(** Runs a chain. A listener that raises leaves the components as they
    were and the error is reported; a listener that is not triggered
    ends the chain. *)
Fixpoint run_chain (chain : list (trigger * listener)) (previous_ok : bool)
    (c : components) (tr : list event) : components * list event :=
  match chain with
  | [] => (c, tr)
  | (trig, fn) :: chain' =>
    if match trig with Then => true | Success => previous_ok end then
      match fn c tr with
      | (inr c', tr') => run_chain chain' true c' tr'
      | (inl e, tr') => run_chain chain' false c (tr' ++ [EvError e])
      end
    else (c, tr)
  end.

(** [textbox.submit(...).then(...).then(...).success(...)] *)
Definition textbox_submit : list (trigger * listener) :=
  [ (Then, on_clear_and_save_textbox);
    (Then, on_display_input);
    (Then, on_check_input_token_length);
    (Success, on_generate) ].

(** [submit_button.click(...).then(...).then(...).success(...)] *)
Definition submit_button_click : list (trigger * listener) :=
  [ (Then, on_clear_and_save_textbox);
    (Then, on_display_input);
    (Then, on_check_input_token_length);
    (Success, on_generate) ].

(** [retry_button.click(...).then(...).then(...)] *)
Definition retry_button_click : list (trigger * listener) :=
  [ (Then, on_delete_prev_fn);
    (Then, on_display_input);
    (Then, on_generate) ].

End Handlers.

End App.

(** The specification's reading of a valid [GenerationConfig]:
    [max_new_tokens] a positive int at most the ceiling, [temperature] above
    0, [top_p] in (0, 1], [top_k] a positive int. *)
Module ConfigSpec.

Definition valid (ceiling max_new_tokens : Z) (temperature top_p : float)
    (top_k : Z) : bool :=
  (0 <? max_new_tokens) && (max_new_tokens <=? ceiling)
  && PrimFloat.ltb 0 temperature
  && PrimFloat.ltb 0 top_p && PrimFloat.leb top_p 1
  && (0 <? top_k).

End ConfigSpec.

(* ===================================================================== *)
(** ** Concrete engines and requests                                      *)
(* ===================================================================== *)

Module Examples.

Definition token_text (t : token) : str :=
  match t with
  | TokId id => [Z.to_N id]
  | TokText text => text
  end.

(** The tokens that spell a text, one code point each. *)
Definition spell (s : string) : list token :=
  map (fun c => TokId (Z.of_N c)) (lit s).

(** An engine with one token per byte of the prompt and one per code point
    of the answer: it answers every prompt with the tokens [reply] (or,
    through the streamer, with [texts]). *)
Definition codepoint_engine (reply : list token) (texts : list str)
    : Engine :=
  {| tokenize := map (fun b => TokId (Z.of_N (Byte.to_N b)));
     model_generate := fun _ _ _ _ => reply;
     detokenize_utf8 := fun toks => Some (concat (map token_text toks));
     token_eos := TokId 2;
     tokenizer_length := fun s => length s;
     streamer := fun _ _ _ _ _ => texts |}.

Definition llama_cpp_wrapper (reply : list token) : LLAMA2_WRAPPER :=
  {| config := {[ "llama_cpp" := PyBool true ]};
     model := codepoint_engine reply [] |}.

Definition transformers_wrapper (texts : list str) : LLAMA2_WRAPPER :=
  {| config := {[ "llama_cpp" := PyBool false ]};
     model := codepoint_engine [] texts |}.

(** A history of 300 turns of ["question"] and ["answer"]. *)
Definition long_history : list turn :=
  repeat (lit "question", lit "answer") 300.

(** A system prompt of 4001 characters. *)
Definition long_system_prompt : str := repeat 97%N 4001.

(** The interface with ["hi"] typed in the textbox, an empty chat and the
    default sliders. *)
Definition typed_hi (system_prompt : str) : App.components :=
  {| App.textbox := lit "hi"; App.saved_input := [];
     App.chatbot := []; App.system_prompt := system_prompt;
     App.max_new_tokens := 1024; App.temperature := 1%float;
     App.top_p := 0.95%float; App.top_k := 50 |}.

Definition hello_engine : Engine := codepoint_engine (spell "Hello") [].

Definition silent_engine : Engine := codepoint_engine [] [].

(** The submit chain on ["hi"] with the long system prompt, then the
    retry chain on the interface that the submit chain left. *)
Definition submitted : App.components * list event :=
  App.run_chain (App.textbox_submit (lit "model.bin") 2048 hello_engine)
                true (typed_hi long_system_prompt) [].

Definition retried : App.components * list event :=
  App.run_chain (App.retry_button_click (lit "model.bin") 2048 hello_engine)
                true (fst submitted) [].

Definition both_quantizations : gmap string pyval :=
  <["model_name" := PyStr (lit "llama-2-7b")]>
    (<["load_in_8bit" := PyBool true]>
       (<["load_in_4bit" := PyBool true]> ∅)).

End Examples.

(* ===================================================================== *)
(** ** Loading: [__init__], [init_model], [init_tokenizer]                *)
(* ===================================================================== *)

Module Loading.

(** What loading does outside the wrapper: a model constructor is called,
    [self.model.eval()] is called, a tokenizer is loaded. *)
Inductive load_event :=
| LoadModel (loader : model_loader)
| ModelEval
| LoadTokenizer (model_name : pyval).

(** The attributes of a wrapper while it is set up, and the calls made so
    far. *)
Record wrapper_state := {
  w_config : gmap string pyval;
  w_model : option model_loader;
  w_tokenizer : option pyval;
  w_log : list load_event
}.

(** [LLAMA2_WRAPPER(config)] *)
Definition new (config : gmap string pyval) : wrapper_state :=
  {| w_config := config; w_model := None; w_tokenizer := None; w_log := [] |}.

(** [create_llama2_tokenizer]: [AutoTokenizer.from_pretrained(model_name)],
    kept as the name it was loaded from. *)
Definition create_llama2_tokenizer (config : gmap string pyval) : pyval :=
  config_get config "model_name" PyNone.

Definition init_model (self : wrapper_state) : wrapper_state :=
  let self :=
    match w_model self with
    | None =>
      let loaded := create_llama2_model (w_config self) in
      {| w_config := w_config self; w_model := Some loaded;
         w_tokenizer := w_tokenizer self;
         w_log := w_log self ++ [LoadModel loaded] |}
    | Some _ => self
    end in
  if negb (truthy (config_get (w_config self) "llama_cpp" PyNone)) then
    {| w_config := w_config self; w_model := w_model self;
       w_tokenizer := w_tokenizer self; w_log := w_log self ++ [ModelEval] |}
  else self.

Definition init_tokenizer (self : wrapper_state) : wrapper_state :=
  match w_tokenizer self with
  | None =>
    if negb (truthy (config_get (w_config self) "llama_cpp" PyNone)) then
      let loaded := create_llama2_tokenizer (w_config self) in
      {| w_config := w_config self; w_model := w_model self;
         w_tokenizer := Some loaded;
         w_log := w_log self ++ [LoadTokenizer loaded] |}
    else self
  | Some _ => self
  end.

End Loading.

(* ===================================================================== *)
(** ** The application: the remaining handlers and chains                 *)
(* ===================================================================== *)

Module AppUI.

(** An exception of the session, or the [UnboundLocalError] of reading [x]
    after a loop that never ran. *)
Inductive py_error :=
| Raised (e : exn)
| UnboundLocalError.

Section Handlers.
Variable MODEL_PATH : str.
Variable MAX_MAX_NEW_TOKENS : Z.
Variable DEFAULT_SYSTEM_PROMPT : str.
Variable engine : Engine.

(** [process_example]: runs [generate] on an empty chat with the default
    system prompt, 1024 new tokens, temperature 1, top-p 0.95 and top-k 50,
    and returns the last transcript. *)
Definition process_example (message : str)
    : list event -> (py_error + (str * list turn)) * list event :=
  fun tr =>
    match App.generate MODEL_PATH MAX_MAX_NEW_TOKENS engine message []
                       DEFAULT_SYSTEM_PROMPT 1024 1 0.95 50 tr with
    | (inl e, tr') => (inl (Raised e), tr')
    | (inr generator, tr') =>
      match rev generator with
      | x :: _ => (inr ([], x), tr')
      | [] => (inl UnboundLocalError, tr')
      end
    end.

(** [fn=lambda x: x, inputs=[saved_input], outputs=textbox] *)
Definition on_restore_textbox : App.listener := fun c =>
  ret {| App.textbox := App.saved_input c;
         App.saved_input := App.saved_input c; App.chatbot := App.chatbot c;
         App.system_prompt := App.system_prompt c;
         App.max_new_tokens := App.max_new_tokens c;
         App.temperature := App.temperature c; App.top_p := App.top_p c;
         App.top_k := App.top_k c |}.

(** [fn=lambda: ([], ""), outputs=[chatbot, saved_input]] *)
Definition on_clear : App.listener := fun c =>
  ret (App.set_chatbot_saved [] [] c).

(** [undo_button.click(...).then(...)] *)
Definition undo_button_click : list (App.trigger * App.listener) :=
  [ (App.Then, App.on_delete_prev_fn);
    (App.Then, on_restore_textbox) ].

(** [clear_button.click(...)] *)
Definition clear_button_click : list (App.trigger * App.listener) :=
  [ (App.Then, on_clear) ].

End Handlers.

End AppUI.

(** Each chunk continues the one before it, starting from text that
    continues [lo]. *)
Fixpoint prefix_chain (lo : str) (chunks : list str) : Prop :=
  match chunks with
  | [] => True
  | c :: chunks' => lo `prefix_of` c /\ prefix_chain c chunks'
  end.

(** Each chunk is a prefix of the next. *)
Definition extending (chunks : list str) : Prop :=
  forall (i : nat) (a b : str),
    chunks !! i = Some a -> chunks !! S i = Some b -> a `prefix_of` b.

(** The answers that a session shows for the chunks of the engine: the
    chunks themselves, or one empty answer when there is none. *)
Definition shown_answers (chunks : list str) : list str :=
  match chunks with
  | [] => [[]]
  | _ :: _ => chunks
  end.

Module Examples2.

(** An engine that cannot decode a token on its own: [detokenize] succeeds
    only on an even number of pending tokens. *)
Definition pairing_engine (reply : list token) : Engine :=
  {| tokenize := map (fun b => TokId (Z.of_N (Byte.to_N b)));
     model_generate := fun _ _ _ _ => reply;
     detokenize_utf8 := fun toks =>
       if Nat.even (length toks)
       then Some (concat (map Examples.token_text toks)) else None;
     token_eos := TokId 2;
     tokenizer_length := fun s => length s;
     streamer := fun _ _ _ _ _ => [] |}.

Definition pairing_wrapper (reply : list token) : LLAMA2_WRAPPER :=
  {| config := {[ "llama_cpp" := PyBool true ]};
     model := pairing_engine reply |}.

(** A message of 2019 characters. *)
Definition long_message : str := repeat 120%N 2019.

(** A chat with one finished turn. *)
Definition one_turn_chat (system_prompt : str) : App.components :=
  {| App.textbox := []; App.saved_input := [];
     App.chatbot := [(lit "hi", lit "Hello")];
     App.system_prompt := system_prompt;
     App.max_new_tokens := 1024; App.temperature := 1%float;
     App.top_p := 0.95%float; App.top_k := 50 |}.

Definition llama_cpp_with_quantization : gmap string pyval :=
  <["llama_cpp" := PyBool true]> Examples.both_quantizations.

End Examples2.

(* ===================================================================== *)
(** ** Facts about the string operations                                  *)
(* ===================================================================== *)

Section SliceFacts.
Context {A : Type}.
Implicit Types s : list A.

Lemma slice_from_neg_short (k : nat) s :
  (length s <= k)%nat -> slice_from (- Z.of_nat k) s = s.
Proof.
  intros Hk. unfold slice_from. cbv zeta.
  destruct (Z.ltb_spec (- Z.of_nat k) 0) as [Hneg | Hpos].
  - replace (Z.to_nat _) with 0%nat by lia. reflexivity.
  - replace (Z.to_nat _) with 0%nat by lia. reflexivity.
Qed.

Lemma slice_from_neg_long (k : nat) s :
  (0 < k < length s)%nat ->
  slice_from (- Z.of_nat k) s = drop (length s - k) s.
Proof.
  intros Hk. unfold slice_from. cbv zeta.
  destruct (Z.ltb_spec (- Z.of_nat k) 0) as [Hneg | Hpos]; [ | lia].
  f_equal. lia.
Qed.

(** Slicing from a negative index keeps a suffix. *)
Lemma slice_from_neg_suffix (k : nat) s :
  (0 < k)%nat -> exists dropped, s = dropped ++ slice_from (- Z.of_nat k) s.
Proof.
  intros Hpos.
  destruct (Nat.le_gt_cases (length s) k) as [Hle | Hgt].
  - exists []. now rewrite slice_from_neg_short.
  - exists (take (length s - k) s).
    rewrite slice_from_neg_long by lia.
    now rewrite take_drop.
Qed.

Lemma slice_from_neg_length (k : nat) s :
  (0 < k)%nat -> length (slice_from (- Z.of_nat k) s) = Nat.min k (length s).
Proof.
  intros Hpos.
  destruct (Nat.le_gt_cases (length s) k) as [Hle | Hgt].
  - rewrite slice_from_neg_short by assumption. lia.
  - rewrite slice_from_neg_long by lia. rewrite length_drop. lia.
Qed.

(** A suffix no longer than the kept window survives the slice. *)
Lemma slice_from_neg_keeps_tail (k : nat) (pre tail : list A) :
  (0 < k)%nat -> (length tail <= k)%nat ->
  exists pre', slice_from (- Z.of_nat k) (pre ++ tail) = pre' ++ tail.
Proof.
  intros Hpos Hk.
  destruct (Nat.le_gt_cases (length (pre ++ tail)) k) as [Hle | Hgt].
  - exists pre. now rewrite slice_from_neg_short.
  - rewrite slice_from_neg_long by lia.
    rewrite length_app in *.
    exists (drop (length pre + length tail - k) pre).
    rewrite drop_app_le by lia. reflexivity.
Qed.
End SliceFacts.

Lemma history_loop_concat (chat_history : list turn) (prompt : str) :
  history_loop prompt chat_history
  = prompt ++ concat (map PromptSpec.turn_block chat_history).
Proof.
  revert prompt.
  induction chat_history as [| [user_input response] rest IH]; intros prompt.
  - cbn. now rewrite app_nil_r.
  - unfold history_loop in *. cbn [fold_left map concat].
    rewrite IH. unfold PromptSpec.turn_block. cbn [fst snd].
    now rewrite <- app_assoc.
Qed.

(** [get_prompt] is the system block followed by the last 2048 characters
    of the turns portion. *)
Lemma get_prompt_unfold (message : str) (chat_history : list turn)
    (system_prompt : str) :
  get_prompt message chat_history system_prompt
  = PromptSpec.system_block system_prompt
    ++ slice_from (-2048) (PromptSpec.turns_portion message chat_history).
Proof.
  unfold get_prompt, PromptSpec.turns_portion, PromptSpec.open_block.
  rewrite history_loop_concat. cbn [app].
  destruct system_prompt as [| c rest]; cbn [length PromptSpec.system_block].
  - reflexivity.
  - replace (0 <? S (length rest))%nat with true
      by (symmetry; apply Nat.ltb_lt; lia).
    now rewrite <- !app_assoc.
Qed.

Lemma startswith_spec (p s : str) :
  startswith p s = true <-> exists post, s = p ++ post.
Proof.
  revert s. induction p as [| a p IH]; intros s; cbn.
  - split; [intros _; now exists s | reflexivity].
  - destruct s as [| b s].
    + split; [discriminate | intros [post Hpost]; discriminate].
    + rewrite andb_true_iff, N.eqb_eq, IH. split.
      * intros [-> [post ->]]. now exists post.
      * intros [post Hpost]. injection Hpost as -> ->. split; [reflexivity |].
        now exists post.
Qed.

Lemma contains_spec (sep s : str) :
  contains sep s = true <-> exists pre post, s = pre ++ sep ++ post.
Proof.
  induction s as [| c s IH]; cbn [contains]; rewrite orb_true_iff, startswith_spec.
  - split.
    + intros [[post Hpost] | Hfalse]; [| discriminate]. now exists [], post.
    + intros (pre & post & Hs). left.
      destruct pre; [now exists post | discriminate].
  - rewrite IH. split.
    + intros [[post Hpost] | (pre & post & ->)].
      * now exists [], post.
      * now exists (c :: pre), post.
    + intros (pre & post & Hs). destruct pre as [| c' pre].
      * left. now exists post.
      * right. injection Hs as -> ->. now exists pre, post.
Qed.

(** [split_head] cuts at the first occurrence of the separator. *)
Lemma split_head_first (sep s : str) :
  contains sep s = true ->
  exists post,
    s = split_head sep s ++ sep ++ post
    /\ forall pre' post', s = pre' ++ sep ++ post' ->
                          (length (split_head sep s) <= length pre')%nat.
Proof.
  induction s as [| c s IH]; cbn [contains split_head].
  - rewrite orb_false_r. intros Hsw. rewrite Hsw.
    apply startswith_spec in Hsw as [post Hpost].
    exists post. split; [assumption | intros; cbn; lia].
  - destruct (startswith sep (c :: s)) eqn:Hsw.
    + intros _. apply startswith_spec in Hsw as [post Hpost].
      exists post. split; [assumption | intros; cbn; lia].
    + cbn [orb]. intros Hc. destruct (IH Hc) as (post & Hs & Hmin).
      exists post. split.
      * cbn. now rewrite <- Hs.
      * intros pre' post' Heq. destruct pre' as [| c' pre'].
        -- assert (startswith sep (c :: s) = true) as Habs
             by (apply startswith_spec; now exists post').
           congruence.
        -- injection Heq as -> Heq. cbn. apply le_n_S. eapply Hmin, Heq.
Qed.

Lemma split_head_length (sep s : str) :
  (length (split_head sep s) <= length s)%nat.
Proof.
  induction s as [| c s IH]; cbn [split_head].
  - destruct (startswith sep []); cbn; lia.
  - destruct (startswith sep (c :: s)); cbn; lia.
Qed.

(* ===================================================================== *)
(** ** The prompt builder                                                 *)
(* ===================================================================== *)

(** C1. Tail truncation: with [T] the turn blocks of the history followed by
    the open block of the message, a [T] longer than 2048 characters is cut
    to exactly its last 2048 characters and a shorter one is kept whole; the
    system block of a non-empty system prompt is put in front, uncut. *)
Theorem get_prompt_tail_truncation (message : str) (chat_history : list turn)
    (system_prompt : str) :
  let T := PromptSpec.turns_portion message chat_history in
  let sys := PromptSpec.system_block system_prompt in
  ((2048 < length T)%nat ->
   exists dropped kept,
     T = dropped ++ kept /\ length kept = 2048%nat
     /\ get_prompt message chat_history system_prompt = sys ++ kept)
  /\ ((length T <= 2048)%nat ->
      get_prompt message chat_history system_prompt = sys ++ T).
Proof.
  intros T sys. subst T sys. rewrite get_prompt_unfold.
  change (-2048) with (- Z.of_nat 2048).
  set (T := PromptSpec.turns_portion message chat_history).
  split; intros HT.
  - rewrite slice_from_neg_long by lia.
    exists (take (length T - 2048) T), (drop (length T - 2048) T).
    rewrite take_drop, length_drop. repeat split. lia.
  - now rewrite slice_from_neg_short by lia.
Qed.

(** C9. The prompt always ends with the open assistant marker
    ['<s>Assistant: '], truncated or not. *)
Theorem get_prompt_ends_with_cursor (message : str) (chat_history : list turn)
    (system_prompt : str) :
  exists before,
    get_prompt message chat_history system_prompt
    = before ++ lit "<s>Assistant: ".
Proof.
  rewrite get_prompt_unfold.
  unfold PromptSpec.turns_portion, PromptSpec.open_block.
  change (NL :: lit "</s><s>Assistant: ")
    with ((NL :: lit "</s>") ++ lit "<s>Assistant: ").
  rewrite !app_assoc.
  change (-2048) with (- Z.of_nat 2048).
  match goal with
  | |- context [slice_from _ (?pre ++ lit "<s>Assistant: ")] =>
    destruct (slice_from_neg_keeps_tail 2048 pre (lit "<s>Assistant: "))
      as [pre' Hpre']; [lia | cbn; lia |]
  end.
  rewrite <- !app_assoc in *. rewrite Hpre'.
  exists (PromptSpec.system_block system_prompt ++ pre').
  now rewrite <- app_assoc.
Qed.

(** Scenario: no history, message ["Hi"], no system prompt. *)
Example get_prompt_hi :
  get_prompt (lit "Hi") [] []
  = lit "<s>Human: Hi" ++ NL :: lit "</s><s>Assistant: ".
Proof. reflexivity. Qed.

(** Scenario: one turn, message ["Bye"], system prompt ["Be nice"]. *)
Example get_prompt_bye :
  get_prompt (lit "Bye") [(lit "Hi", lit "Hello")] (lit "Be nice")
  = lit "<s>System: Be nice" ++ NL :: lit "</s>"
    ++ lit "<s>Human: Hi" ++ NL :: lit "</s><s>Assistant: Hello"
    ++ NL :: lit "</s>"
    ++ lit "<s>Human: Bye" ++ NL :: lit "</s><s>Assistant: ".
Proof. reflexivity. Qed.

(** A long history is cut at the front: 2048 characters remain. *)
Example get_prompt_long_history :
  Z.of_nat (length (PromptSpec.turns_portion (lit "Hi") Examples.long_history))
  = 14431
  /\ length (get_prompt (lit "Hi") Examples.long_history []) = 2048%nat.
Proof. split; vm_compute; reflexivity. Qed.

(* ===================================================================== *)
(** ** Model loading                                                      *)
(* ===================================================================== *)

(** C8. Without [llama_cpp], a configuration that sets both [load_in_8bit]
    and [load_in_4bit] is loaded on the 4-bit path, and the value of
    [load_in_8bit] has no effect on what is loaded. *)
Theorem four_bit_takes_precedence (config : gmap string pyval) :
  truthy (config_get config "llama_cpp" (PyBool false)) = false ->
  truthy (config_get config "load_in_8bit" (PyBool true)) = true ->
  truthy (config_get config "load_in_4bit" (PyBool false)) = true ->
  create_llama2_model config
  = AutoGPTQForCausalLM_from_quantized (config_get config "model_name" PyNone)
  /\ forall v : pyval,
       create_llama2_model (<["load_in_8bit" := v]> config)
       = create_llama2_model config.
Proof.
  intros Hcpp _ H4. unfold create_llama2_model.
  rewrite Hcpp, H4. split; [reflexivity |].
  intros v. unfold config_get in *.
  rewrite !lookup_insert_ne by discriminate.
  now rewrite Hcpp, H4.
Qed.

Lemma four_bit_takes_precedence_witness :
  create_llama2_model Examples.both_quantizations
  = AutoGPTQForCausalLM_from_quantized (PyStr (lit "llama-2-7b"))
  /\ forall v : pyval,
       create_llama2_model (<["load_in_8bit" := v]> Examples.both_quantizations)
       = create_llama2_model Examples.both_quantizations.
Proof.
  apply (four_bit_takes_precedence Examples.both_quantizations);
    vm_compute; reflexivity.
Defined.

(* ===================================================================== *)
(** ** The streaming loops of [generate]                                  *)
(* ===================================================================== *)

Lemma lengths_from_nondecreasing (lo : nat) (chunks : list str) :
  lengths_from lo chunks -> nondecreasing chunks.
Proof.
  revert lo. induction chunks as [| c chunks IH]; intros lo Hfrom i a b Ha Hb.
  - discriminate.
  - destruct Hfrom as [_ Hrest]. destruct i as [| i].
    + cbn in Ha, Hb. injection Ha as <-.
      destruct chunks as [| c' chunks]; [discriminate |].
      cbn in Hb. injection Hb as <-. now destruct Hrest.
    + cbn in Ha, Hb. exact (IH _ Hrest i a b Ha Hb).
Qed.

Lemma lengths_from_weaken (lo lo' : nat) (chunks : list str) :
  (lo' <= lo)%nat -> lengths_from lo chunks -> lengths_from lo' chunks.
Proof.
  destruct chunks as [| c chunks]; [trivial |].
  cbn. intros Hlo [Hc Hrest]. split; [lia | assumption].
Qed.

Lemma try_detokenize_grows (m : Engine) (answer : str)
    (new_tokens : list token) (tok : token) :
  (length answer <= length (fst (try_detokenize m answer new_tokens tok)))%nat.
Proof.
  unfold try_detokenize.
  destruct (detokenize_utf8 m (new_tokens ++ [tok])); cbn [fst].
  - rewrite length_app. lia.
  - lia.
Qed.

(** Case analysis along the branches of one iteration of the loop. *)
Ltac loop_iteration m answer new_tokens tok rest :=
  cbn [llama_cpp_loop];
  destruct (token_eqb tok (TokText (lit "</s>"))) eqn:?Htag; cbn [negb];
  [ | pose proof (try_detokenize_grows m answer new_tokens tok) as ?Hgrow;
      destruct (try_detokenize m answer new_tokens tok) as [?answer ?pending] eqn:?Htry;
      cbn [fst snd] in *;
      match goal with
      | |- context [contains ?sep ?acc] =>
        destruct (contains sep acc) eqn:?Hhuman;
        [ | destruct (token_eqb tok (token_eos m)) eqn:?Heos;
            [ | match goal with
                | |- context [llama_cpp_loop m ?a ?p rest] =>
                  destruct (llama_cpp_loop m a p rest) as [?chunks ?reason] eqn:?Hloop
                end ] ]
      end ].


(** The lengths along the loop, by the way it ends. *)
Lemma llama_cpp_loop_lengths (m : Engine) (answer : str)
    (new_tokens generator : list token) :
  match snd (llama_cpp_loop m answer new_tokens generator) with
  | HumanMarker accumulated =>
    exists init final,
      fst (llama_cpp_loop m answer new_tokens generator) = init ++ [final]
      /\ lengths_from (length answer) init
      /\ Forall (fun c => (length c <= length accumulated)%nat) init
      /\ final = split_head (lit "Human:") accumulated
      /\ (length answer <= length accumulated)%nat
  | _ =>
    lengths_from (length answer)
                 (fst (llama_cpp_loop m answer new_tokens generator))
  end.
Proof.
  revert answer new_tokens.
  induction generator as [| tok rest IH]; intros answer new_tokens.
  - exact I.
  - loop_iteration m answer new_tokens tok rest; cbn [fst snd lengths_from].
    + split; [lia | exact I].
    + exists [], (split_head (lit "Human:") answer0).
      repeat split; [constructor | assumption].
    + split; [assumption | exact I].
    + specialize (IH answer0 pending). rewrite Hloop in IH. cbn [fst snd] in IH.
      destruct reason as [| accumulated | | |];
        try (split; [assumption | assumption]).
      destruct IH as (init & final & -> & Hinit & Hall & Hfinal & Hacc).
      exists (answer0 :: init), final. cbn [lengths_from].
      repeat split; try assumption.
      * constructor; assumption.
      * lia.
Qed.

(** While the stream has not ended, consuming more tokens continues from the
    state reached so far. *)
Lemma llama_cpp_loop_app (m : Engine) (answer : str)
    (new_tokens consumed rest : list token) :
  snd (llama_cpp_loop m answer new_tokens consumed) = Exhausted ->
  llama_cpp_loop m answer new_tokens (consumed ++ rest)
  = let st := loop_state m answer new_tokens consumed in
    let continued := llama_cpp_loop m (fst st) (snd st) rest in
    (fst (llama_cpp_loop m answer new_tokens consumed) ++ fst continued,
     snd continued).
Proof.
  revert answer new_tokens.
  induction consumed as [| tok consumed IH]; intros answer new_tokens Hrun.
  - cbn. now destruct (llama_cpp_loop m answer new_tokens rest).
  - cbn [app loop_state fold_left fst snd]. revert Hrun.
    loop_iteration m answer new_tokens tok consumed;
      cbn [fst snd]; try discriminate.
    intros ->. cbn [fst snd].
    specialize (IH answer0 pending). rewrite Hloop in IH. cbn [fst snd] in IH.
    rewrite (IH eq_refl). reflexivity.
Qed.

Lemma join_snoc (outputs : list str) (text : str) :
  join (outputs ++ [text]) = join outputs ++ text.
Proof. unfold join. rewrite concat_app. cbn. now rewrite app_nil_r. Qed.


Lemma streamer_loop_lengths (outputs texts : list str) :
  lengths_from (length (join outputs)) (streamer_loop outputs texts).
Proof.
  revert outputs. induction texts as [| text texts IH]; intros outputs; cbn.
  - exact I.
  - split.
    + rewrite join_snoc, length_app. lia.
    + apply IH.
Qed.




(** A backend whose first token is the end tag gives one empty chunk. *)
Example end_tag_first_yields_empty_chunk :
  generate (Examples.llama_cpp_wrapper [TokText (lit "</s>"); TokId 72])
           (lit "Hi") 1024 0.8 0.95 50
  = [[]].
Proof. vm_compute. reflexivity. Qed.

(** C4. In the llama.cpp branch, when the stream has not ended on the
    tokens consumed so far and the next token makes the accumulated answer
    contain ['Human:'], the stream ends with one more chunk: the text before
    the first occurrence of the marker in the accumulated answer; the tokens
    that follow are not consumed. *)
Theorem human_marker_ends_stream (self : LLAMA2_WRAPPER) (prompt : str)
    (max_new_tokens : Z) (temperature top_p : float) (top_k : Z)
    (consumed : list token) (tok : token) (rest : list token) :
  truthy (config_get (config self) "llama_cpp" PyNone) = true ->
  backend_tokens self prompt temperature top_p top_k
  = Some (consumed ++ tok :: rest) ->
  snd (llama_cpp_loop (model self) [] [] consumed) = Exhausted ->
  token_eqb tok (TokText (lit "</s>")) = false ->
  let st := loop_state (model self) [] [] consumed in
  let accumulated := fst (try_detokenize (model self) (fst st) (snd st) tok) in
  contains (lit "Human:") accumulated = true ->
  exists before after,
    accumulated = before ++ lit "Human:" ++ after
    /\ (forall before' after',
          accumulated = before' ++ lit "Human:" ++ after' ->
          (length before <= length before')%nat)
    /\ generate self prompt max_new_tokens temperature top_p top_k
       = fst (llama_cpp_loop (model self) [] [] consumed) ++ [before]
    /\ generate_stop self prompt temperature top_p top_k
       = HumanMarker accumulated.
Proof.
  intros Hcpp Hgen Hrun Htag st accumulated Hhuman.
  destruct (split_head_first _ _ Hhuman) as (after & Hsplit & Hfirst).
  exists (split_head (lit "Human:") accumulated), after.
  split; [exact Hsplit | split; [exact Hfirst |]].
  unfold generate, generate_stop. rewrite Hcpp, Hgen.
  rewrite (llama_cpp_loop_app _ _ _ _ _ Hrun). cbv zeta. fold st.
  cbn [llama_cpp_loop fst snd]. rewrite Htag. cbn [negb].
  subst accumulated.
  destruct (try_detokenize (model self) (fst st) (snd st) tok)
    as [answer pending].
  cbn [fst] in *. rewrite Hhuman. split; reflexivity.
Qed.

(** Scenario: the tokens spell ["Ok Human: ignore this"]; the stream ends at
    the colon with the chunk ["Ok "]. *)
Lemma human_marker_ends_stream_witness :
  exists before after,
    lit "Ok Human:" = before ++ lit "Human:" ++ after
    /\ (forall before' after',
          lit "Ok Human:" = before' ++ lit "Human:" ++ after' ->
          (length before <= length before')%nat)
    /\ generate (Examples.llama_cpp_wrapper (Examples.spell "Ok Human: ignore this"))
                (lit "Hi") 1024 0.8 0.95 50
       = [lit "O"; lit "Ok"; lit "Ok "; lit "Ok H"; lit "Ok Hu"; lit "Ok Hum";
          lit "Ok Huma"; lit "Ok Human"] ++ [before]
    /\ generate_stop (Examples.llama_cpp_wrapper (Examples.spell "Ok Human: ignore this"))
                     (lit "Hi") 0.8 0.95 50
       = HumanMarker (lit "Ok Human:").
Proof.
  apply (human_marker_ends_stream
           (Examples.llama_cpp_wrapper (Examples.spell "Ok Human: ignore this"))
           (lit "Hi") 1024 0.8 0.95 50
           (Examples.spell "Ok Human") (TokId 58)
           (Examples.spell " ignore this"));
    vm_compute; reflexivity.
Defined.

Example human_marker_final_chunk :
  List.last (generate (Examples.llama_cpp_wrapper
                         (Examples.spell "Ok Human: ignore this"))
                      (lit "Hi") 1024 0.8 0.95 50) []
  = lit "Ok ".
Proof. vm_compute. reflexivity. Qed.

(** C5. The chunks of one call of [generate] never decrease in length from
    one to the next, except for the last chunk of a stream ended by the
    human marker, which is no longer than the answer accumulated before the
    truncation (as are all chunks before it). *)
Theorem chunk_lengths_monotone (self : LLAMA2_WRAPPER) (prompt : str)
    (max_new_tokens : Z) (temperature top_p : float) (top_k : Z) :
  let chunks := generate self prompt max_new_tokens temperature top_p top_k in
  if truthy (config_get (config self) "llama_cpp" PyNone) then
    match generate_stop self prompt temperature top_p top_k with
    | HumanMarker accumulated =>
      exists init final,
        chunks = init ++ [final]
        /\ nondecreasing init
        /\ (forall c, c ∈ init -> (length c <= length accumulated)%nat)
        /\ final = split_head (lit "Human:") accumulated
        /\ (length final <= length accumulated)%nat
    | _ => nondecreasing chunks
    end
  else nondecreasing chunks.
Proof.
  intros chunks. subst chunks. unfold generate, generate_stop.
  destruct (truthy (config_get (config self) "llama_cpp" PyNone)).
  - destruct (backend_tokens self prompt temperature top_p top_k)
      as [tokens |]; [| intros i a b Ha; discriminate Ha].
    pose proof (llama_cpp_loop_lengths (model self) [] [] tokens) as Hlen.
    destruct (snd (llama_cpp_loop _ _ _ _)) as [| accumulated | | |];
      try (eapply lengths_from_nondecreasing; exact Hlen).
    destruct Hlen as (init & final & Hchunks & Hinit & Hall & Hfinal & _).
    exists init, final. repeat split.
    + exact Hchunks.
    + eapply lengths_from_nondecreasing; exact Hinit.
    + intros c Hc. rewrite Forall_forall in Hall. now apply Hall.
    + exact Hfinal.
    + subst final. apply split_head_length.
  - eapply lengths_from_nondecreasing. apply (streamer_loop_lengths []).
Qed.

(** The human-marker step may shorten the stream: the chunk before the last
    is longer than the last. *)
Example human_marker_chunk_shrinks :
  generate (Examples.llama_cpp_wrapper (Examples.spell "Ok Human: x"))
           (lit "Hi") 1024 0.8 0.95 50 !! 7%nat = Some (lit "Ok Human")
  /\ generate (Examples.llama_cpp_wrapper (Examples.spell "Ok Human: x"))
              (lit "Hi") 1024 0.8 0.95 50 !! 8%nat = Some (lit "Ok ").
Proof. split; vm_compute; reflexivity. Qed.

(* ===================================================================== *)
(** ** The session: [generate] of the application                         *)
(* ===================================================================== *)

(** The application runs the llama.cpp branch. *)
Lemma app_llama_cpp (MODEL_PATH : str) (engine : Engine) :
  truthy (config_get (config (App.llama2_wrapper MODEL_PATH engine))
                     "llama_cpp" PyNone)
  = true.
Proof. reflexivity. Qed.

(** The chunks of the adapter in the application. *)
Lemma app_generate_chunks (MODEL_PATH : str) (engine : Engine) (prompt : str)
    (max_new_tokens : Z) (temperature top_p : float) (top_k : Z) :
  generate (App.llama2_wrapper MODEL_PATH engine) prompt max_new_tokens
           temperature top_p top_k
  = match encode_utf8 prompt with
    | Some data =>
      fst (llama_cpp_loop engine [] []
             (model_generate engine (tokenize engine data) top_p top_k
                             temperature))
    | None => []
    end.
Proof.
  unfold generate, backend_tokens. rewrite app_llama_cpp.
  now destruct (encode_utf8 prompt).
Qed.

(** What the session does with a request, in one equation. *)
Lemma app_generate_unfold (MODEL_PATH : str) (MAX_MAX_NEW_TOKENS : Z)
    (engine : Engine) (message : str) (history_with_input : list turn)
    (system_prompt : str) (max_new_tokens : Z) (temperature top_p : float)
    (top_k : Z) (tr : list event) :
  App.generate MODEL_PATH MAX_MAX_NEW_TOKENS engine message history_with_input
               system_prompt max_new_tokens temperature top_p top_k tr
  = if MAX_MAX_NEW_TOKENS <? max_new_tokens then (inl ValueError, tr)
    else
      let history := slice_to (-1) history_with_input in
      let prompt := get_prompt message history system_prompt in
      match encode_utf8 prompt with
      | Some _ =>
        (inr match generate (App.llama2_wrapper MODEL_PATH engine) prompt
                            max_new_tokens temperature top_p top_k with
             | first_response :: rest =>
               (history ++ [(message, first_response)])
                 :: map (fun response => history ++ [(message, response)]) rest
             | [] => [history ++ [(message, [])]]
             end,
         tr ++ [EvGenerate prompt max_new_tokens temperature top_p top_k])
      | None =>
        (inl UnicodeEncodeError,
         tr ++ [EvGenerate prompt max_new_tokens temperature top_p top_k])
      end.
Proof.
  unfold App.generate, bind, run, generate_raises.
  destruct (MAX_MAX_NEW_TOKENS <? max_new_tokens); [reflexivity |].
  cbn [ret emit]. rewrite app_llama_cpp. cbv zeta.
  now destruct (encode_utf8 _).
Qed.

(** C6. A request with [max_new_tokens] above the ceiling fails with
    [ValueError]: no transcript is yielded and the trace is unchanged, so
    the engine has not been invoked. *)
Theorem generate_rejects_over_ceiling (MODEL_PATH : str)
    (MAX_MAX_NEW_TOKENS : Z) (engine : Engine) (message : str)
    (history_with_input : list turn) (system_prompt : str)
    (max_new_tokens : Z) (temperature top_p : float) (top_k : Z)
    (tr : list event) :
  MAX_MAX_NEW_TOKENS < max_new_tokens ->
  App.generate MODEL_PATH MAX_MAX_NEW_TOKENS engine message history_with_input
               system_prompt max_new_tokens temperature top_p top_k tr
  = (inl ValueError, tr).
Proof.
  intros Hover. rewrite app_generate_unfold.
  now replace (MAX_MAX_NEW_TOKENS <? max_new_tokens) with true
    by (symmetry; apply Z.ltb_lt; exact Hover).
Qed.

(** Scenario: [max_new_tokens] is the ceiling plus one. *)
Lemma generate_rejects_over_ceiling_witness :
  App.generate (lit "model.bin") 2048 Examples.hello_engine (lit "Hi")
               [(lit "Hi", [])] [] 2049 1 0.95 50 []
  = (inl ValueError, []).
Proof.
  apply (generate_rejects_over_ceiling (lit "model.bin") 2048
           Examples.hello_engine (lit "Hi") [(lit "Hi", [])] [] 2049 1 0.95
           50 []).
  lia.
Defined.

(** C7 as stated fails: with [max_new_tokens = 0], [temperature = 0],
    [top_p = 2] and [top_k = 0] the configuration is not valid, and the
    request is accepted all the same: the engine is started with these
    values and transcripts are yielded. *)
Lemma invalid_config_is_accepted :
  ConfigSpec.valid 2048 0 0 2 0 = false
  /\ App.generate (lit "model.bin") 2048 Examples.hello_engine (lit "Hi")
                  [(lit "Hi", [])] [] 0 0 2 0 []
     = (inr [ [(lit "Hi", lit "H")]; [(lit "Hi", lit "He")];
              [(lit "Hi", lit "Hel")]; [(lit "Hi", lit "Hell")];
              [(lit "Hi", lit "Hello")] ],
        [EvGenerate (get_prompt (lit "Hi") [] []) 0 0 2 0]).
Proof. split; vm_compute; reflexivity. Qed.

(** C7, amended. The session validates one thing, once, before the engine is
    started: [max_new_tokens] against the ceiling. Above the ceiling the
    request is rejected with [ValueError] and no transcript. Otherwise no
    value of [max_new_tokens], [temperature], [top_p] or [top_k] makes it
    reject the request: the token iterator of the engine is called on the
    tokenized prompt with exactly the [top_p], [top_k] and [temperature] of
    the request ([max_new_tokens] is not handed to it), and the transcripts
    are built from the chunks of that iterator; the only other failure is
    the [UnicodeEncodeError] of a prompt that cannot be encoded. *)
Theorem generate_validates_only_ceiling (MODEL_PATH : str)
    (MAX_MAX_NEW_TOKENS : Z) (engine : Engine) (message : str)
    (history_with_input : list turn) (system_prompt : str)
    (max_new_tokens : Z) (temperature top_p : float) (top_k : Z)
    (tr : list event) :
  let outcome :=
    App.generate MODEL_PATH MAX_MAX_NEW_TOKENS engine message
                 history_with_input system_prompt max_new_tokens temperature
                 top_p top_k tr in
  let history := slice_to (-1) history_with_input in
  let prompt := get_prompt message history system_prompt in
  (MAX_MAX_NEW_TOKENS < max_new_tokens /\ outcome = (inl ValueError, tr))
  \/ (max_new_tokens <= MAX_MAX_NEW_TOKENS
      /\ match encode_utf8 prompt with
         | Some data =>
           outcome
           = (inr (map (fun r => history ++ [(message, r)])
                       (shown_answers
                          (fst (llama_cpp_loop engine [] []
                                  (model_generate engine
                                     (tokenize engine data)
                                     top_p top_k temperature))))),
              tr ++ [EvGenerate prompt max_new_tokens temperature top_p
                                top_k])
         | None =>
           outcome
           = (inl UnicodeEncodeError,
              tr ++ [EvGenerate prompt max_new_tokens temperature top_p
                                top_k])
         end).
Proof.
  intros outcome history prompt. subst outcome.
  rewrite app_generate_unfold.
  destruct (Z.ltb_spec MAX_MAX_NEW_TOKENS max_new_tokens) as [Hover | Hok].
  - left. split; [exact Hover | reflexivity].
  - right. split; [exact Hok |]. cbv zeta. fold history. fold prompt.
    rewrite app_generate_chunks.
    destruct (encode_utf8 prompt) as [data |]; [| reflexivity].
    now destruct (fst (llama_cpp_loop _ _ _ _)).
Qed.

(** C10 as stated fails: a request whose message is a lone surrogate passes
    the validation of [max_new_tokens]; the first [next()] of the engine
    iterator raises [UnicodeEncodeError], which [except StopIteration] does
    not catch, and the session yields no transcript, though the engine has
    an answer to deliver. *)
Lemma unencodable_message_yields_no_transcript :
  App.generate (lit "model.bin") 2048 Examples.hello_engine [55296%N]
               [([55296%N], [])] [] 1024 1 0.95 50 []
  = (inl UnicodeEncodeError,
     [EvGenerate (get_prompt [55296%N] [] []) 1024 1 0.95 50]).
Proof. vm_compute. reflexivity. Qed.

(** C10, amended. A request that passes the validation of [max_new_tokens]
    and whose prompt can be encoded as UTF-8 yields at least one
    transcript: when the iterator of the engine adapter yields no chunk,
    the session yields [history + [(message, "")]] once and nothing else;
    otherwise it yields one transcript per chunk. When the prompt cannot be
    encoded, the session raises [UnicodeEncodeError] and yields nothing. *)
Theorem generate_yields_a_transcript (MODEL_PATH : str)
    (MAX_MAX_NEW_TOKENS : Z) (engine : Engine) (message : str)
    (history_with_input : list turn) (system_prompt : str)
    (max_new_tokens : Z) (temperature top_p : float) (top_k : Z)
    (tr : list event) :
  max_new_tokens <= MAX_MAX_NEW_TOKENS ->
  let history := slice_to (-1) history_with_input in
  let prompt := get_prompt message history system_prompt in
  let chunks :=
    generate (App.llama2_wrapper MODEL_PATH engine) prompt
             max_new_tokens temperature top_p top_k in
  let outcome :=
    App.generate MODEL_PATH MAX_MAX_NEW_TOKENS engine message
                 history_with_input system_prompt max_new_tokens
                 temperature top_p top_k tr in
  match encode_utf8 prompt with
  | Some _ =>
    exists transcripts,
      fst outcome = inr transcripts
      /\ (1 <= length transcripts)%nat
      /\ (chunks = [] -> transcripts = [history ++ [(message, [])]])
      /\ (chunks <> [] ->
          transcripts = map (fun c => history ++ [(message, c)]) chunks)
  | None => fst outcome = inl UnicodeEncodeError
  end.
Proof.
  intros Hok history prompt chunks outcome. subst outcome.
  rewrite app_generate_unfold.
  replace (MAX_MAX_NEW_TOKENS <? max_new_tokens) with false
    by (symmetry; apply Z.ltb_ge; exact Hok).
  cbv zeta. fold history. fold prompt. fold chunks.
  destruct (encode_utf8 prompt) as [data |]; [| reflexivity].
  cbn [fst]. eexists. split; [reflexivity |].
  destruct chunks as [| first_response rest]; cbn [length map].
  - repeat split; [lia | congruence].
  - repeat split; [lia | discriminate].
Qed.

(** Scenario: the engine delivers no token at all. *)
Lemma generate_yields_a_transcript_witness :
  exists transcripts,
    fst (App.generate (lit "model.bin") 2048 Examples.silent_engine (lit "Hi")
                      [(lit "Bye", lit "Ciao"); (lit "Hi", [])] [] 1024 1
                      0.95 50 [])
    = inr transcripts
    /\ (1 <= length transcripts)%nat
    /\ (@nil str = [] ->
        transcripts = [[(lit "Bye", lit "Ciao")] ++ [(lit "Hi", [])]])
    /\ (@nil str <> [] ->
        transcripts = map (fun c => [(lit "Bye", lit "Ciao")] ++ [(lit "Hi", c)])
                          []).
Proof.
  exact (generate_yields_a_transcript (lit "model.bin") 2048
           Examples.silent_engine (lit "Hi")
           [(lit "Bye", lit "Ciao"); (lit "Hi", [])] [] 1024 1 0.95 50 []
           ltac:(lia)).
Defined.

Example silent_engine_transcripts :
  App.generate (lit "model.bin") 2048 Examples.silent_engine (lit "Hi")
               [(lit "Bye", lit "Ciao"); (lit "Hi", [])] [] 1024 1 0.95 50 []
  = (inr [[(lit "Bye", lit "Ciao"); (lit "Hi", [])]],
     [EvGenerate (get_prompt (lit "Hi") [(lit "Bye", lit "Ciao")] [])
                 1024 1 0.95 50]).
Proof. vm_compute. reflexivity. Qed.

(* ===================================================================== *)
(** ** Admission control in the event chains                              *)
(* ===================================================================== *)

(** [check_input_token_length] leaves the trace as it is: it never starts
    the engine adapter. *)
Lemma check_input_token_length_trace (MODEL_PATH : str) (engine : Engine)
    (message : str) (chat_history : list turn) (system_prompt : str)
    (tr : list event) :
  snd (App.check_input_token_length MODEL_PATH engine message chat_history
                                    system_prompt tr)
  = tr.
Proof.
  unfold App.check_input_token_length.
  destruct (get_input_token_length _ _ _ _) as [e | n]; [reflexivity |].
  now destruct (App.MAX_INPUT_TOKEN_LENGTH <? n).
Qed.

(** A submit that the check refuses, for its length or because the prompt
    cannot be encoded: the error is reported, [generate] is not run, and the
    pending turn stays displayed. *)
Lemma textbox_submit_refused (MODEL_PATH : str) (MAX_MAX_NEW_TOKENS : Z)
    (engine : Engine) (c : App.components) (tr : list event) (e : exn) :
  let message := App.textbox c in
  let history := App.display_input message (App.chatbot c) in
  fst (App.check_input_token_length MODEL_PATH engine message history
                                    (App.system_prompt c) tr)
  = inl e ->
  App.run_chain (App.textbox_submit MODEL_PATH MAX_MAX_NEW_TOKENS engine)
                true c tr
  = (App.set_chatbot history (App.set_textbox_saved [] message c),
     tr ++ [EvError e]).
Proof.
  intros message history Hraise.
  pose proof (check_input_token_length_trace MODEL_PATH engine message history
                (App.system_prompt c) tr) as Htrace.
  unfold App.textbox_submit.
  cbn [App.run_chain App.on_clear_and_save_textbox App.clear_and_save_textbox
       App.on_display_input ret].
  unfold App.on_check_input_token_length, bind.
  cbn [App.set_chatbot App.set_textbox_saved App.saved_input App.chatbot
       App.system_prompt].
  fold message. fold history.
  destruct (App.check_input_token_length MODEL_PATH engine message history
              (App.system_prompt c) tr) as [[e' | u] tr'].
  - cbn [fst snd] in *. injection Hraise as ->. subst tr'. reflexivity.
  - discriminate.
Qed.

(** On the submit chain the gate holds: when the token length measured by
    [check_input_token_length] exceeds the ceiling, one error with both
    lengths is reported, [generate] is not run, and nothing is yielded. *)
Lemma textbox_submit_gate (MODEL_PATH : str) (MAX_MAX_NEW_TOKENS : Z)
    (engine : Engine) (c : App.components) (tr : list event) (measured : Z) :
  let message := App.textbox c in
  let history := App.display_input message (App.chatbot c) in
  get_input_token_length (App.llama2_wrapper MODEL_PATH engine) message
                         history (App.system_prompt c)
  = inr measured ->
  App.MAX_INPUT_TOKEN_LENGTH < measured ->
  App.run_chain (App.textbox_submit MODEL_PATH MAX_MAX_NEW_TOKENS engine)
                true c tr
  = (App.set_chatbot history (App.set_textbox_saved [] message c),
     tr ++ [EvError
              (GrError
                 (lit "The accumulated input is too long ("
                  ++ decimal (Z.to_N measured) ++ lit " > "
                  ++ decimal (Z.to_N App.MAX_INPUT_TOKEN_LENGTH)
                  ++ lit "). Clear your chat history and try again."))]).
Proof.
  intros message history Hmeasured Hover.
  apply textbox_submit_refused.
  fold message. fold history.
  unfold App.check_input_token_length. rewrite Hmeasured.
  now replace (App.MAX_INPUT_TOKEN_LENGTH <? measured) with true
    by (symmetry; apply Z.ltb_lt; exact Hover).
Qed.

(** The button chain is the same chain. *)
Lemma submit_button_click_gate (MODEL_PATH : str) (MAX_MAX_NEW_TOKENS : Z)
    (engine : Engine) :
  App.submit_button_click MODEL_PATH MAX_MAX_NEW_TOKENS engine
  = App.textbox_submit MODEL_PATH MAX_MAX_NEW_TOKENS engine.
Proof. reflexivity. Qed.

(** C2 fails on the retry chain. With a system prompt of 4001 characters and
    one token per character, submitting ["hi"] is refused with one length
    error (4084 > 4000) and no generation; [Retry] on the interface this
    leaves runs [generate] with no length check: the engine is started on a
    prompt of 4048 tokens, above the ceiling, five transcripts are yielded
    and no error is reported. *)
Theorem retry_skips_admission_gate :
  snd Examples.submitted
  = [EvError
       (GrError
          (lit "The accumulated input is too long (4084 > 4000). Clear your chat history and try again."))]
  /\ App.chatbot (fst Examples.submitted) = [(lit "hi", [])]
  /\ get_input_token_length
       (App.llama2_wrapper (lit "model.bin") Examples.hello_engine)
       (lit "hi") [] Examples.long_system_prompt
     = inr 4048
  /\ App.MAX_INPUT_TOKEN_LENGTH < 4048
  /\ snd Examples.retried
     = EvGenerate (get_prompt (lit "hi") [] Examples.long_system_prompt)
                  1024 1 0.95 50
       :: map EvYield
              [ [(lit "hi", lit "H")]; [(lit "hi", lit "He")];
                [(lit "hi", lit "Hel")]; [(lit "hi", lit "Hell")];
                [(lit "hi", lit "Hello")] ]
  /\ App.chatbot (fst Examples.retried) = [(lit "hi", lit "Hello")].
Proof. repeat apply conj; vm_compute; reflexivity. Qed.

(* ===================================================================== *)
(** ** More on the prompt builder                                         *)
(* ===================================================================== *)

Lemma lstrip_suffix (s : str) : exists ws, s = ws ++ lstrip s.
Proof.
  induction s as [| c s [ws IH]]; [now exists [] |].
  cbn. destruct (isspace c).
  - exists (c :: ws). cbn. now rewrite <- IH.
  - now exists [].
Qed.

Lemma lstrip_length (s : str) : (length (lstrip s) <= length s)%nat.
Proof.
  destruct (lstrip_suffix s) as [ws Hs]. rewrite Hs at 2.
  rewrite length_app. lia.
Qed.

Lemma strip_length (s : str) : (length (strip s) <= length s)%nat.
Proof.
  unfold strip, rstrip. rewrite length_rev.
  etransitivity; [apply lstrip_length |]. rewrite length_rev.
  apply lstrip_length.
Qed.

(** What [lstrip] returns is empty or starts with a character that is not
    white space. *)
Lemma lstrip_head (s : str) :
  lstrip s = [] \/ exists c rest, lstrip s = c :: rest /\ isspace c = false.
Proof.
  induction s as [| c s IH]; [now left |].
  cbn. destruct (isspace c) eqn:Hc; [exact IH |].
  right. now exists c, s.
Qed.

Lemma lstrip_fixed (c : codepoint) (rest : str) :
  isspace c = false -> lstrip (c :: rest) = c :: rest.
Proof. intros Hc. cbn. now rewrite Hc. Qed.

Lemma lstrip_idempotent (s : str) : lstrip (lstrip s) = lstrip s.
Proof.
  destruct (lstrip_head s) as [-> | (c & rest & -> & Hc)]; [reflexivity |].
  now apply lstrip_fixed.
Qed.

(** Stripping on the left keeps a last character that is not white space. *)
Lemma lstrip_snoc (w : str) (c : codepoint) :
  isspace c = false -> exists w', lstrip (w ++ [c]) = w' ++ [c].
Proof.
  intros Hc. induction w as [| a w [w' IH]].
  - exists []. now apply lstrip_fixed.
  - cbn. destruct (isspace a).
    + now exists w'.
    + now exists (a :: w).
Qed.

Lemma rstrip_idempotent (s : str) : rstrip (rstrip s) = rstrip s.
Proof. unfold rstrip. now rewrite rev_involutive, lstrip_idempotent. Qed.

(** Stripping on the right keeps a first character that is not white
    space. *)
Lemma rstrip_cons (c : codepoint) (rest : str) :
  isspace c = false -> exists rest', rstrip (c :: rest) = c :: rest'.
Proof.
  intros Hc. unfold rstrip. cbn [rev].
  destruct (lstrip_snoc (rev rest) c Hc) as [w' Hw'].
  change (@List.rev N) with (@rev N) in *.
  rewrite Hw', rev_app_distr. cbn. now exists (rev w').
Qed.

Lemma strip_idempotent (s : str) : strip (strip s) = strip s.
Proof.
  unfold strip.
  destruct (lstrip_head s) as [-> | (c & rest & -> & Hc)]; [reflexivity |].
  destruct (rstrip_cons c rest Hc) as [rest' Hrest'].
  rewrite Hrest', (lstrip_fixed c rest' Hc), <- Hrest'.
  apply rstrip_idempotent.
Qed.

Lemma strip_whitespace (s : str) : forallb isspace s = true -> strip s = [].
Proof.
  intros Hall. unfold strip.
  assert (lstrip s = []) as ->; [| reflexivity].
  induction s as [| c s IH]; [reflexivity |].
  cbn in *. apply andb_true_iff in Hall as [-> Hall]. now apply IH.
Qed.

Lemma slice_from_neg_app_long {A} (k : nat) (pre tail : list A) :
  (0 < k <= length tail)%nat ->
  slice_from (- Z.of_nat k) (pre ++ tail) = slice_from (- Z.of_nat k) tail.
Proof.
  intros Hk. destruct pre as [| a pre]; [reflexivity |].
  rewrite slice_from_neg_long by (rewrite length_app; cbn; lia).
  rewrite length_app, drop_app_ge by lia.
  destruct (Nat.eq_dec k (length tail)) as [-> | Hne].
  - rewrite slice_from_neg_short by lia.
    now replace (_ - _ - _)%nat with 0%nat by lia.
  - rewrite slice_from_neg_long by lia. f_equal. lia.
Qed.

Lemma open_block_length (message : str) :
  length (PromptSpec.open_block message) = (29 + length (strip message))%nat.
Proof.
  unfold PromptSpec.open_block. rewrite !length_app. cbn. lia.
Qed.

(** X1. The prompt has the length of the system block plus the length of
    the turns, the latter capped at 2048: it is never shorter than the 29
    characters of an empty open block, and never longer than 2064
    characters plus the system prompt. *)
Theorem get_prompt_length (message : str) (chat_history : list turn)
    (system_prompt : str) :
  length (get_prompt message chat_history system_prompt)
  = (match system_prompt with
     | [] => 0
     | _ :: _ => 16 + length (strip system_prompt)
     end
     + Nat.min 2048 (length (PromptSpec.turns_portion message chat_history)))%nat
  /\ (29 <= length (get_prompt message chat_history system_prompt)
      <= 2064 + length system_prompt)%nat.
Proof.
  rewrite get_prompt_unfold, length_app.
  change (-2048) with (- Z.of_nat 2048).
  rewrite slice_from_neg_length by lia.
  assert (29 <= length (PromptSpec.turns_portion message chat_history))%nat
    as Hopen.
  { unfold PromptSpec.turns_portion.
    rewrite length_app, open_block_length. lia. }
  pose proof (strip_length system_prompt) as Hstrip.
  destruct system_prompt as [| c rest].
  - cbn [PromptSpec.system_block length]. split; lia.
  - unfold PromptSpec.system_block. rewrite !length_app.
    cbn [length lit map list_ascii_of_string] in *. split; lia.
Qed.

(** X2. A message of 2019 characters or more (after stripping) fills the
    2048-character window on its own: the whole history is cut off and the
    prompt is the one of an empty history. *)
Theorem long_message_drops_history (message : str) (chat_history : list turn)
    (system_prompt : str) :
  (2019 <= length (strip message))%nat ->
  get_prompt message chat_history system_prompt
  = get_prompt message [] system_prompt.
Proof.
  intros Hlong. rewrite !get_prompt_unfold. f_equal.
  unfold PromptSpec.turns_portion. cbn [map concat app].
  change (-2048) with (- Z.of_nat 2048).
  apply slice_from_neg_app_long. rewrite open_block_length. lia.
Qed.

Lemma long_message_drops_history_witness :
  get_prompt Examples2.long_message Examples.long_history []
  = get_prompt Examples2.long_message [] [].
Proof.
  apply (long_message_drops_history Examples2.long_message
           Examples.long_history []).
  apply Nat.leb_le. vm_compute. reflexivity.
Defined.

(** X3. The system block is decided on the unstripped system prompt: a
    system prompt that is not empty but holds only white space still gives
    a system block, with no text in it. *)
Theorem blank_system_prompt_block (message : str) (chat_history : list turn)
    (system_prompt : str) :
  system_prompt <> [] ->
  forallb isspace system_prompt = true ->
  get_prompt message chat_history system_prompt
  = lit "<s>System: " ++ NL :: lit "</s>"
    ++ get_prompt message chat_history [].
Proof.
  intros Hne Hblank. rewrite !get_prompt_unfold.
  destruct system_prompt as [| c rest]; [congruence |].
  unfold PromptSpec.system_block at 1.
  rewrite (strip_whitespace _ Hblank). reflexivity.
Qed.

Lemma blank_system_prompt_block_witness :
  get_prompt (lit "Hi") [] (lit "  ")
  = lit "<s>System: " ++ NL :: lit "</s>" ++ get_prompt (lit "Hi") [] [].
Proof.
  apply (blank_system_prompt_block (lit "Hi") [] (lit "  "));
    [discriminate | reflexivity].
Defined.

(** X4. Only the stripped texts reach the prompt: stripping the message and
    both texts of every turn beforehand gives the same prompt. *)
Theorem get_prompt_strips_texts (message : str) (chat_history : list turn)
    (system_prompt : str) :
  get_prompt (strip message)
             (map (fun t => (strip (fst t), strip (snd t))) chat_history)
             system_prompt
  = get_prompt message chat_history system_prompt.
Proof.
  rewrite !get_prompt_unfold. f_equal. f_equal.
  unfold PromptSpec.turns_portion, PromptSpec.open_block.
  rewrite strip_idempotent. f_equal. f_equal.
  rewrite map_map. apply map_ext. intros [user_input response].
  unfold PromptSpec.turn_block. cbn [fst snd].
  now rewrite !strip_idempotent.
Qed.

(* ===================================================================== *)
(** ** More on model loading                                              *)
(* ===================================================================== *)

(** X5. With [llama_cpp] set, the llama.cpp model is built whatever the two
    quantization flags say, and its context size and batch size are both
    the [MAX_INPUT_TOKEN_LENGTH] entry of the configuration. *)
Theorem llama_cpp_takes_precedence (config : gmap string pyval) :
  truthy (config_get config "llama_cpp" (PyBool false)) = true ->
  create_llama2_model config
  = Llama (config_get config "model_name" PyNone)
          (config_get config "MAX_INPUT_TOKEN_LENGTH" PyNone)
          (config_get config "MAX_INPUT_TOKEN_LENGTH" PyNone)
  /\ forall v8 v4 : pyval,
       create_llama2_model
         (<["load_in_8bit" := v8]> (<["load_in_4bit" := v4]> config))
       = create_llama2_model config.
Proof.
  intros Hcpp. unfold create_llama2_model. rewrite Hcpp.
  split; [reflexivity |]. intros v8 v4. unfold config_get in *.
  rewrite !lookup_insert_ne by discriminate. now rewrite Hcpp.
Qed.

Lemma llama_cpp_takes_precedence_witness :
  create_llama2_model Examples2.llama_cpp_with_quantization
  = Llama (PyStr (lit "llama-2-7b")) PyNone PyNone
  /\ forall v8 v4 : pyval,
       create_llama2_model
         (<["load_in_8bit" := v8]>
            (<["load_in_4bit" := v4]> Examples2.llama_cpp_with_quantization))
       = create_llama2_model Examples2.llama_cpp_with_quantization.
Proof.
  apply (llama_cpp_takes_precedence Examples2.llama_cpp_with_quantization).
  vm_compute. reflexivity.
Defined.

(** X6. Missing keys: a configuration with neither [llama_cpp] nor
    [load_in_4bit] is loaded through [AutoModelForCausalLM.from_pretrained],
    in 8 bits unless [load_in_8bit] says otherwise, and under the name
    [None] when [model_name] is missing too. *)
Theorem missing_keys_default_to_8bit (config : gmap string pyval) :
  config !! "llama_cpp" = None ->
  config !! "load_in_4bit" = None ->
  create_llama2_model config
  = AutoModelForCausalLM_from_pretrained
      (match config !! "model_name" with Some name => name | None => PyNone end)
      (match config !! "load_in_8bit" with
       | Some flag => flag
       | None => PyBool true
       end).
Proof.
  intros Hcpp H4. unfold create_llama2_model, config_get.
  now rewrite Hcpp, H4.
Qed.

Lemma missing_keys_default_to_8bit_witness :
  create_llama2_model ∅
  = AutoModelForCausalLM_from_pretrained PyNone (PyBool true).
Proof.
  exact (missing_keys_default_to_8bit ∅ eq_refl eq_refl).
Defined.

(** X7. The model is loaded once: after [init_model] the model is there, a
    second [init_model] keeps it and calls no constructor again (it only
    repeats [eval] outside llama.cpp); under llama.cpp [init_tokenizer]
    changes nothing. *)
Theorem init_model_loads_once (self : Loading.wrapper_state) :
  let once := Loading.init_model self in
  let twice := Loading.init_model once in
  let llama_cpp :=
    truthy (config_get (Loading.w_config self) "llama_cpp" PyNone) in
  (exists loaded, Loading.w_model once = Some loaded)
  /\ Loading.w_model twice = Loading.w_model once
  /\ Loading.w_log twice
     = Loading.w_log once ++ (if llama_cpp then [] else [Loading.ModelEval])
  /\ (if llama_cpp then Loading.init_tokenizer self = self else True).
Proof.
  intros once twice llama_cpp. subst once twice llama_cpp.
  unfold Loading.init_model, Loading.init_tokenizer.
  destruct self as [cfg [loaded |] tok log]; cbn;
    destruct (truthy (config_get cfg "llama_cpp" PyNone)) eqn:Hcpp; cbn;
    rewrite ?Hcpp; cbn;
    (split; [eexists; reflexivity |]);
    (split; [reflexivity |]);
    (split; [now rewrite ?app_nil_r |]);
    try exact I; now destruct tok.
Qed.

(** The start of the application ([init_tokenizer], then [init_model],
    on its configuration) builds the llama.cpp model on [MODEL_PATH] with
    a context of 4000 tokens, loads no tokenizer and never calls [eval]:
    [LOAD_IN_4BIT = True] has no effect. *)
Theorem app_startup_loads_llama_cpp (MODEL_PATH : str) :
  Loading.init_model
    (Loading.init_tokenizer (Loading.new (App.config MODEL_PATH)))
  = {| Loading.w_config := App.config MODEL_PATH;
       Loading.w_model :=
         Some (Llama (PyStr MODEL_PATH) (PyInt 4000) (PyInt 4000));
       Loading.w_tokenizer := None;
       Loading.w_log :=
         [Loading.LoadModel
            (Llama (PyStr MODEL_PATH) (PyInt 4000) (PyInt 4000))] |}.
Proof. reflexivity. Qed.

(* ===================================================================== *)
(** ** More on the streaming loops                                        *)
(* ===================================================================== *)

Lemma split_head_none (sep s : str) :
  contains sep s = false -> split_head sep s = s.
Proof.
  induction s as [| c s IH]; cbn [contains split_head];
    intros Hc; apply orb_false_iff in Hc as [Hsw Hrest]; rewrite Hsw.
  - reflexivity.
  - now rewrite IH.
Qed.

Lemma split_head_prefix (sep s : str) : split_head sep s `prefix_of` s.
Proof.
  induction s as [| c s IH]; cbn [split_head].
  - destruct (startswith sep []); apply prefix_nil.
  - destruct (startswith sep (c :: s)); [apply prefix_nil |].
    now apply prefix_cons.
Qed.

(** What is cut before the separator does not contain it. *)
Lemma split_head_clean (sep s : str) :
  sep <> [] -> contains sep (split_head sep s) = false.
Proof.
  intros Hsep. destruct (contains sep s) eqn:Hs.
  - destruct (contains sep (split_head sep s)) eqn:Hin; [| reflexivity].
    exfalso.
    destruct (split_head_first _ _ Hs) as (post & Hsplit & Hfirst).
    apply contains_spec in Hin as (p & q & Hin).
    specialize (Hfirst p (q ++ sep ++ post)).
    rewrite Hin in Hfirst at 1.
    assert (s = p ++ sep ++ q ++ sep ++ post) as Heq.
    { rewrite Hsplit at 1. rewrite Hin. now rewrite <- !app_assoc. }
    specialize (Hfirst Heq). rewrite !length_app in Hfirst.
    destruct sep; [congruence | cbn in Hfirst; lia].
  - now rewrite split_head_none.
Qed.

Lemma try_detokenize_extends (m : Engine) (answer : str)
    (new_tokens : list token) (tok : token) :
  answer `prefix_of` fst (try_detokenize m answer new_tokens tok).
Proof.
  unfold try_detokenize.
  destruct (detokenize_utf8 m (new_tokens ++ [tok])); cbn [fst].
  - now apply prefix_app_r.
  - reflexivity.
Qed.

Lemma prefix_chain_extending (lo : str) (chunks : list str) :
  prefix_chain lo chunks -> extending chunks.
Proof.
  revert lo. induction chunks as [| c chunks IH]; intros lo Hchain i a b Ha Hb.
  - discriminate.
  - destruct Hchain as [_ Hrest]. destruct i as [| i].
    + cbn in Ha, Hb. injection Ha as <-.
      destruct chunks as [| c' chunks]; [discriminate |].
      cbn in Hb. injection Hb as <-. now destruct Hrest.
    + cbn in Ha, Hb. exact (IH _ Hrest i a b Ha Hb).
Qed.

(** No chunk of the loop holds the marker when the answer it starts from
    does not. *)
Lemma llama_cpp_loop_clean (m : Engine) (answer : str)
    (new_tokens generator : list token) :
  contains (lit "Human:") answer = false ->
  Forall (fun c => contains (lit "Human:") c = false)
         (fst (llama_cpp_loop m answer new_tokens generator)).
Proof.
  revert answer new_tokens.
  induction generator as [| tok rest IH]; intros answer new_tokens Hclean.
  - constructor.
  - loop_iteration m answer new_tokens tok rest; cbn [fst].
    + now repeat constructor.
    + repeat constructor. now apply split_head_clean.
    + now repeat constructor.
    + specialize (IH answer0 pending Hhuman). rewrite Hloop in IH.
      now constructor.
Qed.

(** Each chunk of the loop continues the one before it. *)
Lemma llama_cpp_loop_extends (m : Engine) (answer : str)
    (new_tokens generator : list token) :
  match snd (llama_cpp_loop m answer new_tokens generator) with
  | HumanMarker accumulated =>
    exists init final,
      fst (llama_cpp_loop m answer new_tokens generator) = init ++ [final]
      /\ prefix_chain answer init
      /\ Forall (fun c => c `prefix_of` accumulated) init
      /\ final = split_head (lit "Human:") accumulated
      /\ answer `prefix_of` accumulated
  | _ =>
    prefix_chain answer (fst (llama_cpp_loop m answer new_tokens generator))
  end.
Proof.
  revert answer new_tokens.
  induction generator as [| tok rest IH]; intros answer new_tokens.
  - exact I.
  - pose proof (try_detokenize_extends m answer new_tokens tok) as Hext.
    loop_iteration m answer new_tokens tok rest; cbn [fst snd prefix_chain].
    + split; [reflexivity | exact I].
    + exists [], (split_head (lit "Human:") answer0).
      repeat split; [constructor | assumption].
    + split; [assumption | exact I].
    + specialize (IH answer0 pending). rewrite Hloop in IH. cbn [fst snd] in IH.
      destruct reason as [| accumulated | | |];
        try (split; [assumption | assumption]).
      destruct IH as (init & final & -> & Hinit & Hall & Hfinal & Hacc).
      exists (answer0 :: init), final. cbn [prefix_chain].
      repeat split; try assumption.
      * constructor; assumption.
      * now transitivity answer0.
Qed.

(** Once the loop has left, what follows in the iterator is not read. *)
Lemma llama_cpp_loop_stops (m : Engine) (answer : str)
    (new_tokens consumed rest : list token) :
  snd (llama_cpp_loop m answer new_tokens consumed) <> Exhausted ->
  llama_cpp_loop m answer new_tokens (consumed ++ rest)
  = llama_cpp_loop m answer new_tokens consumed.
Proof.
  revert answer new_tokens.
  induction consumed as [| tok consumed IH]; intros answer new_tokens Hstop.
  - now contradiction Hstop.
  - cbn [app]. revert Hstop.
    loop_iteration m answer new_tokens tok consumed;
      cbn [fst snd]; try reflexivity.
    intros Hstop. specialize (IH answer0 pending).
    rewrite Hloop in IH. cbn [snd] in IH.
    cbn [llama_cpp_loop] in *. now rewrite (IH Hstop).
Qed.

Lemma last_cons_default {A} (x : A) (l : list A) (d : A) :
  List.last (x :: l) d = List.last l x.
Proof.
  revert x d. induction l as [| y l IH]; intros x d; [reflexivity |].
  change (List.last (x :: y :: l) d) with (List.last (y :: l) d).
  now rewrite (IH y d), (IH y x).
Qed.

(** While the loop runs, it yields one chunk per token, and the last chunk
    is the answer accumulated so far. *)
Lemma llama_cpp_loop_running (m : Engine) (answer : str)
    (new_tokens consumed : list token) :
  snd (llama_cpp_loop m answer new_tokens consumed) = Exhausted ->
  length (fst (llama_cpp_loop m answer new_tokens consumed)) = length consumed
  /\ List.last (fst (llama_cpp_loop m answer new_tokens consumed)) answer
     = fst (loop_state m answer new_tokens consumed).
Proof.
  revert answer new_tokens.
  induction consumed as [| tok consumed IH]; intros answer new_tokens.
  - intros _. split; reflexivity.
  - cbn [loop_state fold_left fst snd].
    loop_iteration m answer new_tokens tok consumed;
      cbn [fst snd]; try discriminate.
    intros ->. specialize (IH answer0 pending). rewrite Hloop in IH.
    cbn [fst snd] in IH. destruct (IH eq_refl) as [Hcount Hlast].
    cbn [length]. split; [now rewrite Hcount |].
    unfold loop_state in Hlast. rewrite <- Hlast.
    apply last_cons_default.
Qed.

Lemma streamer_loop_lookup (outputs texts : list str) (i : nat) :
  (i < length texts)%nat ->
  streamer_loop outputs texts !! i = Some (join (outputs ++ take (S i) texts)).
Proof.
  revert outputs i.
  induction texts as [| text texts IH]; intros outputs i Hi; [cbn in Hi; lia |].
  destruct i as [| i]; cbn [streamer_loop lookup list_lookup].
  - cbn. reflexivity.
  - cbn in Hi. rewrite IH by lia. cbn [take]. now rewrite <- app_assoc.
Qed.

Lemma streamer_loop_extends (outputs texts : list str) :
  prefix_chain (join outputs) (streamer_loop outputs texts).
Proof.
  revert outputs. induction texts as [| text texts IH]; intros outputs; cbn.
  - exact I.
  - split; [| apply IH]. rewrite join_snoc. now apply prefix_app_r.
Qed.

(** X8. In the llama.cpp branch no chunk ever contains the marker
    ['Human:']: a started user turn is cut before it reaches the caller. *)
Theorem generate_never_emits_marker (self : LLAMA2_WRAPPER) (prompt : str)
    (max_new_tokens : Z) (temperature top_p : float) (top_k : Z) :
  truthy (config_get (config self) "llama_cpp" PyNone) = true ->
  Forall (fun c => contains (lit "Human:") c = false)
         (generate self prompt max_new_tokens temperature top_p top_k).
Proof.
  intros Hcpp. unfold generate. rewrite Hcpp.
  destruct (backend_tokens self prompt temperature top_p top_k);
    [now apply llama_cpp_loop_clean | constructor].
Qed.

Lemma generate_never_emits_marker_witness :
  Forall (fun c => contains (lit "Human:") c = false)
         (generate (Examples.llama_cpp_wrapper
                      (Examples.spell "Ok Human: ignore this"))
                   (lit "Hi") 1024 0.8 0.95 50).
Proof.
  apply (generate_never_emits_marker
           (Examples.llama_cpp_wrapper (Examples.spell "Ok Human: ignore this"))
           (lit "Hi") 1024 0.8 0.95 50).
  vm_compute. reflexivity.
Defined.

(** X9. Each chunk is a prefix of the next one, in both branches; in a
    stream ended by the human marker this holds up to the last chunk, and
    that chunk and all chunks before it are prefixes of the answer
    accumulated before the cut. *)
Theorem chunks_extend_each_other (self : LLAMA2_WRAPPER) (prompt : str)
    (max_new_tokens : Z) (temperature top_p : float) (top_k : Z) :
  let chunks := generate self prompt max_new_tokens temperature top_p top_k in
  if truthy (config_get (config self) "llama_cpp" PyNone) then
    match generate_stop self prompt temperature top_p top_k with
    | HumanMarker accumulated =>
      exists init final,
        chunks = init ++ [final]
        /\ extending init
        /\ (forall c, c ∈ init -> c `prefix_of` accumulated)
        /\ final `prefix_of` accumulated
    | _ => extending chunks
    end
  else extending chunks.
Proof.
  intros chunks. subst chunks. unfold generate, generate_stop.
  destruct (truthy (config_get (config self) "llama_cpp" PyNone)).
  - destruct (backend_tokens self prompt temperature top_p top_k)
      as [tokens |]; [| intros i a b Ha; discriminate Ha].
    pose proof (llama_cpp_loop_extends (model self) [] [] tokens) as Hext.
    destruct (snd (llama_cpp_loop _ _ _ _)) as [| accumulated | | |];
      try (eapply prefix_chain_extending; exact Hext).
    destruct Hext as (init & final & Hchunks & Hinit & Hall & Hfinal & _).
    exists init, final. repeat split.
    + exact Hchunks.
    + eapply prefix_chain_extending; exact Hinit.
    + intros c Hc. rewrite Forall_forall in Hall. now apply Hall.
    + subst final. apply split_head_prefix.
  - eapply prefix_chain_extending. apply (streamer_loop_extends []).
Qed.

(** X10. In the transformers branch the chunk of rank [i] is the
    concatenation of the first [i + 1] texts of the streamer, so the last
    chunk is the whole text. *)
Theorem transformers_chunks_are_running_joins (self : LLAMA2_WRAPPER)
    (prompt : str) (max_new_tokens : Z) (temperature top_p : float)
    (top_k : Z) (i : nat) :
  truthy (config_get (config self) "llama_cpp" PyNone) = false ->
  let texts :=
    streamer (model self) prompt max_new_tokens top_p top_k temperature in
  (i < length texts)%nat ->
  generate self prompt max_new_tokens temperature top_p top_k !! i
  = Some (join (take (S i) texts))
  /\ List.last (generate self prompt max_new_tokens temperature top_p top_k) []
     = join texts.
Proof.
  intros Hhf texts Hi. unfold generate. rewrite Hhf. fold texts. split.
  - now rewrite streamer_loop_lookup.
  - assert (forall outputs ts d,
              ts <> [] ->
              List.last (streamer_loop outputs ts) d = join (outputs ++ ts))
      as Hlast.
    { intros outputs ts. revert outputs.
      induction ts as [| t ts IH]; intros outputs d Hne; [congruence |].
      cbn [streamer_loop]. rewrite last_cons_default.
      destruct ts as [| t' ts]; [reflexivity |].
      rewrite IH by discriminate. now rewrite <- app_assoc. }
    apply (Hlast [] texts []). destruct texts; [cbn in Hi; lia | discriminate].
Qed.

Lemma transformers_chunks_are_running_joins_witness :
  generate (Examples.transformers_wrapper [lit "Hel"; lit "lo"; lit "!"])
           (lit "Hi") 1024 0.8 0.95 50 !! 1%nat
  = Some (join (take 2 [lit "Hel"; lit "lo"; lit "!"]))
  /\ List.last (generate (Examples.transformers_wrapper
                            [lit "Hel"; lit "lo"; lit "!"])
                         (lit "Hi") 1024 0.8 0.95 50) []
     = join [lit "Hel"; lit "lo"; lit "!"].
Proof.
  apply (transformers_chunks_are_running_joins
           (Examples.transformers_wrapper [lit "Hel"; lit "lo"; lit "!"])
           (lit "Hi") 1024 0.8 0.95 50 1%nat).
  - vm_compute. reflexivity.
  - vm_compute. lia.
Defined.

(** X11. Once the llama.cpp loop has left (end tag, human marker or
    end-of-sequence token), the tokens that the iterator would still deliver
    are not read: they change neither the chunks nor the way the stream
    ended. *)
Theorem stream_ignores_tokens_after_stop (m : Engine)
    (consumed rest : list token) :
  snd (llama_cpp_loop m [] [] consumed) <> Exhausted ->
  llama_cpp_loop m [] [] (consumed ++ rest) = llama_cpp_loop m [] [] consumed.
Proof. apply llama_cpp_loop_stops. Qed.

Lemma stream_ignores_tokens_after_stop_witness :
  llama_cpp_loop Examples.hello_engine [] []
                 ([TokId 72; TokId 2] ++ Examples.spell "more")
  = llama_cpp_loop Examples.hello_engine [] [] [TokId 72; TokId 2].
Proof.
  apply (stream_ignores_tokens_after_stop Examples.hello_engine
           [TokId 72; TokId 2] (Examples.spell "more")).
  vm_compute. discriminate.
Defined.

(** X12. A stream that ends because the iterator is exhausted yields
    exactly one chunk per token, also for the tokens that fail to decode:
    a decoding failure repeats the previous answer instead of skipping the
    chunk. *)
Theorem one_chunk_per_token (self : LLAMA2_WRAPPER) (prompt : str)
    (max_new_tokens : Z) (temperature top_p : float) (top_k : Z) :
  truthy (config_get (config self) "llama_cpp" PyNone) = true ->
  generate_stop self prompt temperature top_p top_k = Exhausted ->
  exists tokens,
    backend_tokens self prompt temperature top_p top_k = Some tokens
    /\ length (generate self prompt max_new_tokens temperature top_p top_k)
       = length tokens.
Proof.
  intros Hcpp Hstop. unfold generate, generate_stop in *. rewrite Hcpp.
  destruct (backend_tokens self prompt temperature top_p top_k)
    as [tokens |]; [| discriminate].
  exists tokens. split; [reflexivity |].
  now apply llama_cpp_loop_running.
Qed.

Lemma one_chunk_per_token_witness :
  exists tokens,
    backend_tokens (Examples2.pairing_wrapper (Examples.spell "Hello"))
                   (lit "Hi") 0.8 0.95 50
    = Some tokens
    /\ length (generate (Examples2.pairing_wrapper (Examples.spell "Hello"))
                        (lit "Hi") 1024 0.8 0.95 50)
       = length tokens.
Proof.
  apply (one_chunk_per_token
           (Examples2.pairing_wrapper (Examples.spell "Hello"))
           (lit "Hi") 1024 0.8 0.95 50);
    vm_compute; reflexivity.
Defined.

(** Tokens that decode only in pairs: every other chunk repeats. *)
Example pairing_engine_chunks :
  generate (Examples2.pairing_wrapper (Examples.spell "Hello"))
           (lit "Hi") 1024 0.8 0.95 50
  = [[]; lit "He"; lit "He"; lit "Hell"; lit "Hell"].
Proof. vm_compute. reflexivity. Qed.

(** X13. When the end tag ['</s>'] arrives while the stream is running, the
    stream ends by yielding once more the chunk it yielded last (the empty
    string when nothing was yielded): the tag adds no text, and tokens that
    were still waiting to be decoded are dropped. *)
Theorem end_tag_repeats_last_chunk (self : LLAMA2_WRAPPER) (prompt : str)
    (max_new_tokens : Z) (temperature top_p : float) (top_k : Z)
    (consumed rest : list token) :
  truthy (config_get (config self) "llama_cpp" PyNone) = true ->
  backend_tokens self prompt temperature top_p top_k
  = Some (consumed ++ TokText (lit "</s>") :: rest) ->
  snd (llama_cpp_loop (model self) [] [] consumed) = Exhausted ->
  let before := fst (llama_cpp_loop (model self) [] [] consumed) in
  generate self prompt max_new_tokens temperature top_p top_k
  = before ++ [List.last before []]
  /\ generate_stop self prompt temperature top_p top_k = EndTag.
Proof.
  intros Hcpp Hgen Hrun before. subst before.
  unfold generate, generate_stop. rewrite Hcpp, Hgen.
  rewrite (llama_cpp_loop_app _ _ _ _ _ Hrun). cbv zeta.
  destruct (llama_cpp_loop_running _ _ _ _ Hrun) as [_ ->].
  cbn [llama_cpp_loop fst snd].
  replace (token_eqb (TokText (lit "</s>")) (TokText (lit "</s>"))) with true
    by (symmetry; vm_compute; reflexivity).
  split; reflexivity.
Qed.

Lemma end_tag_repeats_last_chunk_witness :
  generate (Examples2.pairing_wrapper
              (Examples.spell "Hel" ++ TokText (lit "</s>") :: Examples.spell "lo"))
           (lit "Hi") 1024 0.8 0.95 50
  = [[]; lit "He"; lit "He"] ++ [List.last [[]; lit "He"; lit "He"] []]
  /\ generate_stop (Examples2.pairing_wrapper
                      (Examples.spell "Hel" ++ TokText (lit "</s>")
                                     :: Examples.spell "lo"))
                   (lit "Hi") 0.8 0.95 50
     = EndTag.
Proof.
  apply (end_tag_repeats_last_chunk
           (Examples2.pairing_wrapper
              (Examples.spell "Hel" ++ TokText (lit "</s>") :: Examples.spell "lo"))
           (lit "Hi") 1024 0.8 0.95 50 (Examples.spell "Hel")
           (Examples.spell "lo"));
    vm_compute; reflexivity.
Defined.

(* ===================================================================== *)
(** ** More on the session and the event chains                           *)
(* ===================================================================== *)

Lemma slice_to_drop_last {A} (h : list A) (t : A) :
  slice_to (-1) (h ++ [t]) = h.
Proof.
  unfold slice_to. cbv zeta. rewrite length_app. cbn [length].
  replace (Z.to_nat _) with (length h) by (cbn; lia).
  now rewrite take_app_length.
Qed.

Lemma delete_prev_fn_snoc (h : list turn) (m r : str) :
  App.delete_prev_fn (h ++ [(m, r)]) = (h, m).
Proof.
  unfold App.delete_prev_fn.
  change (@List.rev turn) with (@rev turn).
  rewrite rev_app_distr. cbn. now rewrite removelast_last.
Qed.

Lemma last_shown_answers (chunks : list str) :
  List.last (shown_answers chunks) [] = List.last chunks [].
Proof. now destruct chunks. Qed.

(** A request within the ceiling, in one equation. *)
Lemma app_generate_accept (MODEL_PATH : str) (MAX_MAX_NEW_TOKENS : Z)
    (engine : Engine) (message : str) (history_with_input : list turn)
    (system_prompt : str) (max_new_tokens : Z) (temperature top_p : float)
    (top_k : Z) (tr : list event) :
  max_new_tokens <= MAX_MAX_NEW_TOKENS ->
  App.generate MODEL_PATH MAX_MAX_NEW_TOKENS engine message history_with_input
               system_prompt max_new_tokens temperature top_p top_k tr
  = let history := slice_to (-1) history_with_input in
    let prompt := get_prompt message history system_prompt in
    match encode_utf8 prompt with
    | Some _ =>
      (inr (map (fun r => history ++ [(message, r)])
                (shown_answers
                   (generate (App.llama2_wrapper MODEL_PATH engine) prompt
                             max_new_tokens temperature top_p top_k))),
       tr ++ [EvGenerate prompt max_new_tokens temperature top_p top_k])
    | None =>
      (inl UnicodeEncodeError,
       tr ++ [EvGenerate prompt max_new_tokens temperature top_p top_k])
    end.
Proof.
  intros Hok. rewrite app_generate_unfold.
  replace (MAX_MAX_NEW_TOKENS <? max_new_tokens) with false
    by (symmetry; apply Z.ltb_ge; exact Hok).
  cbv zeta. destruct (encode_utf8 _); [| reflexivity].
  now destruct (generate _ _ _ _ _ _).
Qed.

(** A request above the ceiling, in one equation. *)
Lemma generate_rejects_over_ceiling_aux (MODEL_PATH : str)
    (MAX_MAX_NEW_TOKENS : Z) (engine : Engine) (message : str)
    (history_with_input : list turn) (system_prompt : str)
    (max_new_tokens : Z) (temperature top_p : float) (top_k : Z)
    (tr : list event) :
  MAX_MAX_NEW_TOKENS < max_new_tokens ->
  App.generate MODEL_PATH MAX_MAX_NEW_TOKENS engine message history_with_input
               system_prompt max_new_tokens temperature top_p top_k tr
  = (inl ValueError, tr).
Proof.
  intros Hover. rewrite app_generate_unfold.
  now replace (MAX_MAX_NEW_TOKENS <? max_new_tokens) with true
    by (symmetry; apply Z.ltb_lt; exact Hover).
Qed.

(** X14. [delete_prev_fn] removes exactly the last turn and hands back its
    user text, whatever the answer was, so it undoes [display_input]; on an
    empty chat it returns the empty chat and the empty message. *)
Theorem delete_prev_fn_undoes_display_input (history : list turn)
    (message response : str) :
  App.delete_prev_fn (history ++ [(message, response)]) = (history, message)
  /\ App.delete_prev_fn (App.display_input message history)
     = (history, message)
  /\ App.delete_prev_fn [] = ([], []).
Proof.
  repeat split; [apply delete_prev_fn_snoc | apply delete_prev_fn_snoc].
Qed.

(** X15. The session generates on the chat without the pending turn that
    [display_input] appended: the prompt is built from the chat before it,
    and, when that prompt can be encoded, every transcript is that chat plus
    one turn for the message, so the chat keeps its length while the answer
    streams; when it cannot, the session raises [UnicodeEncodeError]. *)
Theorem generate_replaces_pending_turn (MODEL_PATH : str)
    (MAX_MAX_NEW_TOKENS : Z) (engine : Engine) (message pending : str)
    (history : list turn) (system_prompt : str) (max_new_tokens : Z)
    (temperature top_p : float) (top_k : Z) (tr : list event) :
  max_new_tokens <= MAX_MAX_NEW_TOKENS ->
  let outcome :=
    App.generate MODEL_PATH MAX_MAX_NEW_TOKENS engine message
                 (App.display_input pending history) system_prompt
                 max_new_tokens temperature top_p top_k tr in
  snd outcome
  = tr ++ [EvGenerate (get_prompt message history system_prompt)
                      max_new_tokens temperature top_p top_k]
  /\ match encode_utf8 (get_prompt message history system_prompt) with
     | Some _ =>
       exists transcripts,
         fst outcome = inr transcripts
         /\ Forall (fun t =>
                      length t = length (App.display_input pending history)
                      /\ exists response,
                           t = history ++ [(message, response)])
                   transcripts
     | None => fst outcome = inl UnicodeEncodeError
     end.
Proof.
  intros Hok outcome. subst outcome.
  rewrite app_generate_accept by exact Hok. cbv zeta.
  unfold App.display_input. rewrite slice_to_drop_last.
  destruct (encode_utf8 (get_prompt message history system_prompt));
    cbn [fst snd]; (split; [reflexivity |]); [| reflexivity].
  eexists. split; [reflexivity |].
  apply Forall_forall. intros t Ht.
  apply list_elem_of_fmap in Ht as (r & -> & _).
  split; [rewrite !length_app; reflexivity | now exists r].
Qed.

Lemma generate_replaces_pending_turn_witness :
  snd (App.generate (lit "model.bin") 2048 Examples.hello_engine (lit "Hi")
                    (App.display_input (lit "Hi") [(lit "Bye", lit "Ciao")])
                    [] 1024 1 0.95 50 [])
  = [] ++ [EvGenerate (get_prompt (lit "Hi") [(lit "Bye", lit "Ciao")] [])
                      1024 1 0.95 50]
  /\ exists transcripts,
       fst (App.generate (lit "model.bin") 2048 Examples.hello_engine
                         (lit "Hi")
                         (App.display_input (lit "Hi")
                                            [(lit "Bye", lit "Ciao")])
                         [] 1024 1 0.95 50 [])
       = inr transcripts
       /\ Forall (fun t =>
                    length t
                    = length (App.display_input (lit "Hi")
                                                [(lit "Bye", lit "Ciao")])
                    /\ exists response,
                         t = [(lit "Bye", lit "Ciao")]
                             ++ [(lit "Hi", response)])
                 transcripts.
Proof.
  exact (generate_replaces_pending_turn (lit "model.bin") 2048
           Examples.hello_engine (lit "Hi") (lit "Hi")
           [(lit "Bye", lit "Ciao")] [] 1024 1 0.95 50 [] ltac:(lia)).
Defined.

(** X16. In the application, which runs llama.cpp, [max_new_tokens] only
    serves the ceiling check: it is not handed to the token iterator, and
    two accepted requests that differ in nothing else yield the same
    transcripts. *)
Theorem max_new_tokens_does_not_bound_llama_cpp (MODEL_PATH : str)
    (MAX_MAX_NEW_TOKENS : Z) (engine : Engine) (message : str)
    (history_with_input : list turn) (system_prompt : str)
    (max_new_tokens max_new_tokens' : Z) (temperature top_p : float)
    (top_k : Z) (tr : list event) :
  max_new_tokens <= MAX_MAX_NEW_TOKENS ->
  max_new_tokens' <= MAX_MAX_NEW_TOKENS ->
  fst (App.generate MODEL_PATH MAX_MAX_NEW_TOKENS engine message
                    history_with_input system_prompt max_new_tokens
                    temperature top_p top_k tr)
  = fst (App.generate MODEL_PATH MAX_MAX_NEW_TOKENS engine message
                      history_with_input system_prompt max_new_tokens'
                      temperature top_p top_k tr).
Proof.
  intros Hok Hok'. rewrite !app_generate_accept by assumption. cbv zeta.
  rewrite !app_generate_chunks.
  now destruct (encode_utf8 _).
Qed.

Lemma max_new_tokens_does_not_bound_llama_cpp_witness :
  fst (App.generate (lit "model.bin") 2048 Examples.hello_engine (lit "Hi")
                    [(lit "Hi", [])] [] 1 1 0.95 50 [])
  = fst (App.generate (lit "model.bin") 2048 Examples.hello_engine (lit "Hi")
                      [(lit "Hi", [])] [] 2048 1 0.95 50 []).
Proof.
  apply (max_new_tokens_does_not_bound_llama_cpp (lit "model.bin") 2048
           Examples.hello_engine (lit "Hi") [(lit "Hi", [])] [] 1 2048 1 0.95
           50 []); lia.
Defined.

(** X17. [check_input_token_length] never touches the engine adapter or the
    trace. On a prompt that cannot be encoded as UTF-8 it lets the
    [UnicodeEncodeError] of the token count through. Otherwise it measures
    the llama.cpp tokenization of the encoded prompt and raises its length
    error, with both lengths, exactly when the measure is above 4000: a
    prompt of exactly 4000 tokens is accepted. *)
Theorem check_input_token_length_boundary (MODEL_PATH : str)
    (engine : Engine) (message : str) (chat_history : list turn)
    (system_prompt : str) (tr : list event) :
  let prompt := get_prompt message chat_history system_prompt in
  let outcome :=
    App.check_input_token_length MODEL_PATH engine message chat_history
                                 system_prompt tr in
  snd outcome = tr
  /\ match encode_utf8 prompt with
     | Some data =>
       let measured := Z.of_nat (length (tokenize engine data)) in
       get_input_token_length (App.llama2_wrapper MODEL_PATH engine) message
                              chat_history system_prompt
       = inr measured
       /\ (fst outcome = inr tt <-> measured <= 4000)
       /\ (4000 < measured ->
           fst outcome
           = inl (GrError
                    (lit "The accumulated input is too long ("
                     ++ decimal (Z.to_N measured) ++ lit " > "
                     ++ decimal 4000
                     ++ lit "). Clear your chat history and try again.")))
     | None => fst outcome = inl UnicodeEncodeError
     end.
Proof.
  intros prompt outcome. subst outcome.
  split; [apply check_input_token_length_trace |].
  unfold App.check_input_token_length, get_input_token_length,
    get_token_length.
  rewrite app_llama_cpp. fold prompt.
  destruct (encode_utf8 prompt) as [data |]; [| reflexivity].
  cbv zeta. cbn [model App.llama2_wrapper].
  change App.MAX_INPUT_TOKEN_LENGTH with 4000.
  split; [reflexivity |].
  destruct (Z.ltb_spec 4000 (Z.of_nat (length (tokenize engine data))))
    as [Hover | Hok]; cbn [fst raise ret].
  - split; [split; [discriminate | lia] | reflexivity].
  - split; [split; [intros _; exact Hok | reflexivity] | lia].
Qed.

Lemma last_map_shown_answers {B} (f : str -> B) (chunks : list str) (d : B) :
  List.last (map f (shown_answers chunks)) d = f (List.last chunks []).
Proof.
  destruct chunks as [| c chunks]; [reflexivity |].
  cbn [shown_answers]. revert c.
  induction chunks as [| c' chunks IH]; intros c; [reflexivity |].
  change (List.last (map f (c :: c' :: chunks)) d)
    with (List.last (map f (c' :: chunks)) d).
  rewrite IH. reflexivity.
Qed.

(** The listener of [generate] on a request within the ceiling. *)
Lemma on_generate_accept (MODEL_PATH : str) (MAX_MAX_NEW_TOKENS : Z)
    (engine : Engine) (c : App.components) (tr : list event) :
  App.max_new_tokens c <= MAX_MAX_NEW_TOKENS ->
  App.on_generate MODEL_PATH MAX_MAX_NEW_TOKENS engine c tr
  = let history := slice_to (-1) (App.chatbot c) in
    let message := App.saved_input c in
    let prompt := get_prompt message history (App.system_prompt c) in
    let chunks :=
      generate (App.llama2_wrapper MODEL_PATH engine) prompt
               (App.max_new_tokens c) (App.temperature c) (App.top_p c)
               (App.top_k c) in
    match encode_utf8 prompt with
    | Some _ =>
      (inr (App.set_chatbot (history ++ [(message, List.last chunks [])]) c),
       (tr ++ [EvGenerate prompt (App.max_new_tokens c) (App.temperature c)
                          (App.top_p c) (App.top_k c)])
       ++ map EvYield (map (fun r => history ++ [(message, r)])
                           (shown_answers chunks)))
    | None =>
      (inl UnicodeEncodeError,
       tr ++ [EvGenerate prompt (App.max_new_tokens c) (App.temperature c)
                         (App.top_p c) (App.top_k c)])
    end.
Proof.
  intros Hok. unfold App.on_generate, bind.
  rewrite app_generate_accept by exact Hok. cbv zeta.
  destruct (encode_utf8 _); [| reflexivity].
  unfold ret. now rewrite last_map_shown_answers.
Qed.

(** The submit chain up to the check, when the check passes. *)
Lemma textbox_submit_checked (MODEL_PATH : str) (MAX_MAX_NEW_TOKENS : Z)
    (engine : Engine) (c : App.components) (tr : list event) (measured : Z) :
  let message := App.textbox c in
  let shown :=
    App.set_chatbot (App.display_input message (App.chatbot c))
                    (App.set_textbox_saved [] message c) in
  get_input_token_length (App.llama2_wrapper MODEL_PATH engine) message
                         (App.display_input message (App.chatbot c))
                         (App.system_prompt c)
  = inr measured ->
  measured <= App.MAX_INPUT_TOKEN_LENGTH ->
  App.run_chain (App.textbox_submit MODEL_PATH MAX_MAX_NEW_TOKENS engine)
                true c tr
  = App.run_chain
      [(App.Success, App.on_generate MODEL_PATH MAX_MAX_NEW_TOKENS engine)]
      true shown tr.
Proof.
  intros message shown Hmeasured Hlen. subst shown.
  unfold App.textbox_submit.
  cbn [App.run_chain App.on_clear_and_save_textbox App.clear_and_save_textbox
       App.on_display_input ret].
  unfold App.on_check_input_token_length, App.check_input_token_length, bind.
  cbn [App.set_chatbot App.set_textbox_saved App.saved_input App.chatbot
       App.system_prompt].
  fold message. rewrite Hmeasured.
  replace (App.MAX_INPUT_TOKEN_LENGTH <? measured) with false
    by (symmetry; apply Z.ltb_ge; exact Hlen).
  reflexivity.
Qed.

(** X18. A submit that passes the length check, with [max_new_tokens]
    within its ceiling: the chain clears the textbox and starts the engine
    adapter on the prompt of the chat as it was before the message was
    displayed (the length was measured with the pending turn, the prompt is
    built without it). When that prompt can be encoded, the chain yields the
    chat plus the growing answer and leaves the chat with the last answer,
    with no error; when it cannot, the [UnicodeEncodeError] is reported,
    nothing is yielded and the pending turn keeps its empty answer. *)
Theorem textbox_submit_accepted (MODEL_PATH : str) (MAX_MAX_NEW_TOKENS : Z)
    (engine : Engine) (c : App.components) (tr : list event) (measured : Z) :
  let message := App.textbox c in
  let prompt := get_prompt message (App.chatbot c) (App.system_prompt c) in
  let chunks :=
    generate (App.llama2_wrapper MODEL_PATH engine) prompt
             (App.max_new_tokens c) (App.temperature c) (App.top_p c)
             (App.top_k c) in
  get_input_token_length (App.llama2_wrapper MODEL_PATH engine) message
                         (App.display_input message (App.chatbot c))
                         (App.system_prompt c)
  = inr measured ->
  measured <= App.MAX_INPUT_TOKEN_LENGTH ->
  App.max_new_tokens c <= MAX_MAX_NEW_TOKENS ->
  App.run_chain (App.textbox_submit MODEL_PATH MAX_MAX_NEW_TOKENS engine)
                true c tr
  = match encode_utf8 prompt with
    | Some _ =>
      (App.set_chatbot (App.chatbot c ++ [(message, List.last chunks [])])
                       (App.set_textbox_saved [] message c),
       tr ++ EvGenerate prompt (App.max_new_tokens c) (App.temperature c)
                        (App.top_p c) (App.top_k c)
          :: map EvYield (map (fun r => App.chatbot c ++ [(message, r)])
                              (shown_answers chunks)))
    | None =>
      (App.set_chatbot (App.chatbot c ++ [(message, [])])
                       (App.set_textbox_saved [] message c),
       tr ++ [EvGenerate prompt (App.max_new_tokens c) (App.temperature c)
                         (App.top_p c) (App.top_k c);
              EvError UnicodeEncodeError])
    end.
Proof.
  intros message prompt chunks Hmeasured Hlen Hok.
  rewrite (textbox_submit_checked _ _ _ _ _ _ Hmeasured Hlen).
  cbn [App.run_chain]. rewrite on_generate_accept by exact Hok. cbv zeta.
  cbn [App.set_chatbot App.set_textbox_saved App.saved_input App.chatbot
       App.system_prompt App.max_new_tokens App.temperature App.top_p
       App.top_k App.textbox].
  unfold App.display_input. rewrite slice_to_drop_last.
  fold message. fold prompt. fold chunks.
  destruct (encode_utf8 prompt); cbn [App.run_chain];
    now rewrite <- app_assoc.
Qed.

Lemma textbox_submit_accepted_witness :
  App.run_chain (App.textbox_submit (lit "model.bin") 2048
                                    Examples.hello_engine)
                true (Examples.typed_hi []) []
  = (App.set_chatbot ([] ++ [(lit "hi", lit "Hello")])
                     (App.set_textbox_saved [] (lit "hi")
                                            (Examples.typed_hi [])),
     [] ++ EvGenerate (get_prompt (lit "hi") [] []) 1024 1 0.95 50
        :: map EvYield (map (fun r => [] ++ [(lit "hi", r)])
                            [lit "H"; lit "He"; lit "Hel"; lit "Hell";
                             lit "Hello"])).
Proof.
  refine (textbox_submit_accepted (lit "model.bin") 2048 Examples.hello_engine
            (Examples.typed_hi []) [] 67 _ _ _).
  - vm_compute. reflexivity.
  - vm_compute. discriminate.
  - vm_compute. discriminate.
Defined.

(** X19. A submit that passes the length check but asks for more new tokens
    than the ceiling reports one [ValueError] and starts no generation; the
    textbox is already cleared and the pending turn, with its empty answer,
    stays in the chat. *)
Theorem textbox_submit_over_ceiling (MODEL_PATH : str)
    (MAX_MAX_NEW_TOKENS : Z) (engine : Engine) (c : App.components)
    (tr : list event) (measured : Z) :
  let message := App.textbox c in
  get_input_token_length (App.llama2_wrapper MODEL_PATH engine) message
                         (App.display_input message (App.chatbot c))
                         (App.system_prompt c)
  = inr measured ->
  measured <= App.MAX_INPUT_TOKEN_LENGTH ->
  MAX_MAX_NEW_TOKENS < App.max_new_tokens c ->
  App.run_chain (App.textbox_submit MODEL_PATH MAX_MAX_NEW_TOKENS engine)
                true c tr
  = (App.set_chatbot (App.chatbot c ++ [(message, [])])
                     (App.set_textbox_saved [] message c),
     tr ++ [EvError ValueError]).
Proof.
  intros message Hmeasured Hlen Hover.
  rewrite (textbox_submit_checked _ _ _ _ _ _ Hmeasured Hlen).
  cbn [App.run_chain]. unfold App.on_generate, bind.
  rewrite generate_rejects_over_ceiling_aux by exact Hover.
  reflexivity.
Qed.

Lemma textbox_submit_over_ceiling_witness :
  App.run_chain (App.textbox_submit (lit "model.bin") 512
                                    Examples.hello_engine)
                true (Examples.typed_hi []) []
  = (App.set_chatbot ([] ++ [(lit "hi", [])])
                     (App.set_textbox_saved [] (lit "hi")
                                            (Examples.typed_hi [])),
     [] ++ [EvError ValueError]).
Proof.
  refine (textbox_submit_over_ceiling (lit "model.bin") 512
            Examples.hello_engine (Examples.typed_hi []) [] 67 _ _ _).
  - vm_compute. reflexivity.
  - vm_compute. discriminate.
  - vm_compute. reflexivity.
Defined.

(** X20. [Retry] regenerates the last turn: the last answer is thrown away
    and does not reach the prompt, and the engine adapter is started, with
    no length check, on the last user message with the chat before it. When
    that prompt can be encoded, the new answer takes the place of the old
    one; when it cannot, the [UnicodeEncodeError] is reported, nothing is
    yielded and the turn is left with an empty answer. *)
Theorem retry_regenerates_last_turn (MODEL_PATH : str)
    (MAX_MAX_NEW_TOKENS : Z) (engine : Engine) (c : App.components)
    (history : list turn) (message response : str) (tr : list event) :
  App.chatbot c = history ++ [(message, response)] ->
  App.max_new_tokens c <= MAX_MAX_NEW_TOKENS ->
  let prompt := get_prompt message history (App.system_prompt c) in
  let chunks :=
    generate (App.llama2_wrapper MODEL_PATH engine) prompt
             (App.max_new_tokens c) (App.temperature c) (App.top_p c)
             (App.top_k c) in
  App.run_chain (App.retry_button_click MODEL_PATH MAX_MAX_NEW_TOKENS engine)
                true c tr
  = match encode_utf8 prompt with
    | Some _ =>
      (App.set_chatbot_saved (history ++ [(message, List.last chunks [])])
                             message c,
       tr ++ EvGenerate prompt (App.max_new_tokens c) (App.temperature c)
                        (App.top_p c) (App.top_k c)
          :: map EvYield (map (fun r => history ++ [(message, r)])
                              (shown_answers chunks)))
    | None =>
      (App.set_chatbot_saved (history ++ [(message, [])]) message c,
       tr ++ [EvGenerate prompt (App.max_new_tokens c) (App.temperature c)
                         (App.top_p c) (App.top_k c);
              EvError UnicodeEncodeError])
    end.
Proof.
  intros Hchat Hok prompt chunks.
  unfold App.retry_button_click.
  cbn [App.run_chain]. unfold App.on_delete_prev_fn at 1.
  rewrite Hchat, delete_prev_fn_snoc.
  cbn [ret App.on_display_input App.set_chatbot App.set_chatbot_saved
       App.saved_input App.chatbot].
  rewrite on_generate_accept by exact Hok. cbv zeta.
  cbn [App.set_chatbot App.set_chatbot_saved App.saved_input App.chatbot
       App.system_prompt App.max_new_tokens App.temperature App.top_p
       App.top_k App.textbox].
  unfold App.display_input. rewrite slice_to_drop_last.
  fold prompt. fold chunks.
  destruct (encode_utf8 prompt); cbn [App.run_chain];
    now rewrite <- app_assoc.
Qed.

Lemma retry_regenerates_last_turn_witness :
  App.run_chain (App.retry_button_click (lit "model.bin") 2048
                   (Examples.codepoint_engine (Examples.spell "Hey") []))
                true (Examples2.one_turn_chat []) []
  = (App.set_chatbot_saved ([] ++ [(lit "hi", lit "Hey")]) (lit "hi")
                           (Examples2.one_turn_chat []),
     [] ++ EvGenerate (get_prompt (lit "hi") [] []) 1024 1 0.95 50
        :: map EvYield (map (fun r => [] ++ [(lit "hi", r)])
                            [lit "H"; lit "He"; lit "Hey"])).
Proof.
  refine (retry_regenerates_last_turn (lit "model.bin") 2048
            (Examples.codepoint_engine (Examples.spell "Hey") [])
            (Examples2.one_turn_chat []) [] (lit "hi") (lit "Hello") [] _ _).
  - reflexivity.
  - vm_compute. discriminate.
Defined.

(** A retry whose prompt cannot be encoded: the error is reported and the
    old answer is lost. *)
Example retry_with_lone_surrogate :
  App.run_chain (App.retry_button_click (lit "model.bin") 2048
                                        Examples.hello_engine)
                true
                (App.set_chatbot [([55296%N], lit "old")]
                                 (Examples.typed_hi []))
                []
  = (App.set_chatbot_saved [([55296%N], [])] [55296%N]
                           (Examples.typed_hi []),
     [EvGenerate (get_prompt [55296%N] [] []) 1024 1 0.95 50;
      EvError UnicodeEncodeError]).
Proof. vm_compute. reflexivity. Qed.

(** X21. [Retry] on an empty chat is not a no-op: the empty pop is caught,
    an empty message is displayed, and the engine adapter is started on the
    prompt of an empty message. When that prompt can be encoded the chat
    ends with a turn whose user text is empty and whose answer is the last
    chunk; when the system prompt makes it unencodable, the
    [UnicodeEncodeError] is reported and the empty turn stays. *)
Theorem retry_on_empty_chat (MODEL_PATH : str) (MAX_MAX_NEW_TOKENS : Z)
    (engine : Engine) (c : App.components) (tr : list event) :
  App.chatbot c = [] ->
  App.max_new_tokens c <= MAX_MAX_NEW_TOKENS ->
  let prompt := get_prompt [] [] (App.system_prompt c) in
  let chunks :=
    generate (App.llama2_wrapper MODEL_PATH engine) prompt
             (App.max_new_tokens c) (App.temperature c) (App.top_p c)
             (App.top_k c) in
  App.run_chain (App.retry_button_click MODEL_PATH MAX_MAX_NEW_TOKENS engine)
                true c tr
  = match encode_utf8 prompt with
    | Some _ =>
      (App.set_chatbot_saved [([], List.last chunks [])] [] c,
       tr ++ EvGenerate prompt (App.max_new_tokens c) (App.temperature c)
                        (App.top_p c) (App.top_k c)
          :: map EvYield (map (fun r => [([], r)]) (shown_answers chunks)))
    | None =>
      (App.set_chatbot_saved [([], [])] [] c,
       tr ++ [EvGenerate prompt (App.max_new_tokens c) (App.temperature c)
                         (App.top_p c) (App.top_k c);
              EvError UnicodeEncodeError])
    end.
Proof.
  intros Hchat Hok prompt chunks.
  unfold App.retry_button_click.
  cbn [App.run_chain]. unfold App.on_delete_prev_fn at 1.
  rewrite Hchat. cbn [App.delete_prev_fn rev].
  cbn [ret App.on_display_input App.set_chatbot App.set_chatbot_saved
       App.saved_input App.chatbot].
  rewrite on_generate_accept by exact Hok. cbv zeta.
  cbn [App.set_chatbot App.set_chatbot_saved App.saved_input App.chatbot
       App.system_prompt App.max_new_tokens App.temperature App.top_p
       App.top_k App.textbox].
  unfold App.display_input. cbn [app].
  change (slice_to (-1) [(@nil codepoint, @nil codepoint)]) with (@nil turn).
  fold prompt. fold chunks.
  destruct (encode_utf8 prompt); cbn [App.run_chain app];
    now rewrite <- app_assoc.
Qed.

Lemma retry_on_empty_chat_witness :
  App.run_chain (App.retry_button_click (lit "model.bin") 2048
                                        Examples.hello_engine)
                true (Examples.typed_hi []) []
  = (App.set_chatbot_saved [([], lit "Hello")] [] (Examples.typed_hi []),
     [] ++ EvGenerate (get_prompt [] [] []) 1024 1 0.95 50
        :: map EvYield (map (fun r => [([], r)])
                            [lit "H"; lit "He"; lit "Hel"; lit "Hell";
                             lit "Hello"])).
Proof.
  refine (retry_on_empty_chat (lit "model.bin") 2048 Examples.hello_engine
            (Examples.typed_hi []) [] _ _).
  - reflexivity.
  - vm_compute. discriminate.
Defined.

Lemma rev_map_shown_answers {B} (f : str -> B) (chunks : list str) :
  exists xs, rev (map f (shown_answers chunks)) = f (List.last chunks []) :: xs.
Proof.
  destruct chunks as [| c chunks]; [now exists [] |].
  cbn [shown_answers].
  assert (c :: chunks <> []) as Hne by discriminate.
  destruct (exists_last Hne) as (l' & a & ->).
  rewrite map_app, rev_app_distr, last_last. cbn [map rev app].
  now eexists.
Qed.

(** X22. [process_example] has three outcomes. With a ceiling below its
    fixed 1024 new tokens it fails with [ValueError] before the engine is
    started. With a message or default system prompt that cannot be encoded
    as UTF-8 it fails with the [UnicodeEncodeError] of the engine adapter.
    Otherwise it returns the empty textbox and a chat of one turn, the
    message with the last chunk of the engine (the empty string when there
    is none), and never reads an unbound [x]. *)
Theorem process_example_outcome (MODEL_PATH : str) (MAX_MAX_NEW_TOKENS : Z)
    (DEFAULT_SYSTEM_PROMPT : str) (engine : Engine) (message : str)
    (tr : list event) :
  let prompt := get_prompt message [] DEFAULT_SYSTEM_PROMPT in
  let chunks :=
    generate (App.llama2_wrapper MODEL_PATH engine) prompt 1024 1 0.95 50 in
  AppUI.process_example MODEL_PATH MAX_MAX_NEW_TOKENS DEFAULT_SYSTEM_PROMPT
                        engine message tr
  = if MAX_MAX_NEW_TOKENS <? 1024
    then (inl (AppUI.Raised ValueError), tr)
    else match encode_utf8 prompt with
         | Some _ =>
           (inr ([], [(message, List.last chunks [])]),
            tr ++ [EvGenerate prompt 1024 1 0.95 50])
         | None =>
           (inl (AppUI.Raised UnicodeEncodeError),
            tr ++ [EvGenerate prompt 1024 1 0.95 50])
         end.
Proof.
  intros prompt chunks. unfold AppUI.process_example.
  destruct (Z.ltb_spec MAX_MAX_NEW_TOKENS 1024) as [Hlow | Hok].
  - now rewrite generate_rejects_over_ceiling_aux by exact Hlow.
  - rewrite app_generate_accept by exact Hok. cbv zeta.
    change (slice_to (-1) (@nil turn)) with (@nil turn).
    fold prompt. fold chunks.
    destruct (encode_utf8 prompt); [| reflexivity]. cbv beta iota.
    match goal with
    | |- context [rev (map ?f (shown_answers chunks))] =>
      destruct (rev_map_shown_answers f chunks) as [xs ->]
    end.
    reflexivity.
Qed.

(** X23. [Undo] after a submit that the check refused, for its length or
    because the prompt cannot be encoded, gives back what was typed: the
    refused submit had cleared the textbox; after the undo the textbox holds
    the message again and the chat is the one before the submit; nothing is
    added to the trace. *)
Theorem undo_restores_refused_submit (MODEL_PATH : str)
    (MAX_MAX_NEW_TOKENS : Z) (engine : Engine) (c : App.components)
    (tr tr' : list event) (e : exn) :
  let message := App.textbox c in
  fst (App.check_input_token_length MODEL_PATH engine message
         (App.display_input message (App.chatbot c)) (App.system_prompt c) tr)
  = inl e ->
  let refused :=
    fst (App.run_chain
           (App.textbox_submit MODEL_PATH MAX_MAX_NEW_TOKENS engine)
           true c tr) in
  let undone := App.run_chain AppUI.undo_button_click true refused tr' in
  App.textbox refused = []
  /\ App.textbox (fst undone) = App.textbox c
  /\ App.chatbot (fst undone) = App.chatbot c
  /\ snd undone = tr'.
Proof.
  intros message Hrefuse refused undone. subst refused undone.
  rewrite (textbox_submit_refused MODEL_PATH MAX_MAX_NEW_TOKENS engine c tr e
             Hrefuse).
  cbn [fst]. unfold AppUI.undo_button_click.
  cbn [App.run_chain]. unfold App.on_delete_prev_fn.
  cbn [App.set_chatbot App.set_textbox_saved App.chatbot].
  unfold App.display_input. rewrite !delete_prev_fn_snoc.
  cbn. repeat split.
Qed.

Lemma undo_restores_refused_submit_witness :
  App.textbox (fst Examples.submitted) = []
  /\ App.textbox
       (fst (App.run_chain AppUI.undo_button_click true
                           (fst Examples.submitted) []))
     = App.textbox (Examples.typed_hi Examples.long_system_prompt)
  /\ App.chatbot
       (fst (App.run_chain AppUI.undo_button_click true
                           (fst Examples.submitted) []))
     = App.chatbot (Examples.typed_hi Examples.long_system_prompt)
  /\ snd (App.run_chain AppUI.undo_button_click true
                        (fst Examples.submitted) [])
     = [].
Proof.
  refine (undo_restores_refused_submit (lit "model.bin") 2048
            Examples.hello_engine
            (Examples.typed_hi Examples.long_system_prompt) [] []
            (GrError
               (lit "The accumulated input is too long (4084 > 4000). Clear your chat history and try again."))
            _).
  vm_compute. reflexivity.
Defined.

(** The encoder on one, two, three and four bytes, and on a lone
    surrogate. *)
Example encode_utf8_samples :
  encode_utf8 (lit "Hi") = Some [Byte.x48; Byte.x69]
  /\ encode_utf8 [233%N] = Some [Byte.xc3; Byte.xa9]
  /\ encode_utf8 [8364%N] = Some [Byte.xe2; Byte.x82; Byte.xac]
  /\ encode_utf8 [128512%N] = Some [Byte.xf0; Byte.x9f; Byte.x98; Byte.x80]
  /\ encode_utf8 [97%N; 55296%N; 98%N] = None.
Proof. repeat apply conj; vm_compute; reflexivity. Qed.
